(** * JARVISAI: the tool-call dispatchers, the system controller and the
      realtime session of [ai_control.py] and [system_control.py]

    A shallow embedding of the Python sources.  Methods become functions in
    a small state-and-exception monad; everything a method does outside its
    own object (collaborator methods, [subprocess], [os.system], the
    [keyboard] package, audio streams, sockets, threads) goes through one
    primitive, [ext], which records the call in a log and asks an arbitrary
    environment [behave] for the result. *)

From stdpp Require Import base strings list gmap pretty.

Set Default Proof Using "Type".
Open Scope string_scope.

(** ** Python values, exceptions and the method monad *)

Module Py.

#[local] Set Warnings "-register-all".

(** The values that travel through the modelled code: JSON-like tool-call
    arguments, names of functions, types or methods of the modelled object
    passed as arguments ([PRef]), references to objects owned by a library
    ([PObj]: an input stream, a socket, a thread, a result dictionary) and
    their bound methods ([PMethod]). *)
Inductive pyval : Type :=
| PNone
| PBool (b : bool)
| PInt (z : Z)
| PStr (s : string)
| PList (l : list pyval)
| PDict (d : list (string * pyval))
| PRef (name : string)
| PMethod (receiver : pyval) (name : string)
| PObj (id : N).

(** [bool(v)]: the truth value Python's [if v:] uses.  Library objects
    and bound methods define neither [__bool__] nor [__len__]. *)
Definition truthy (v : pyval) : bool :=
  match v with
  | PNone => false
  | PBool b => b
  | PInt z => negb (z =? 0)%Z
  | PStr s => negb (String.eqb s "")
  | PList l => match l with [] => false | _ => true end
  | PDict d => match d with [] => false | _ => true end
  | PRef _ => true
  | PMethod _ _ => true
  | PObj _ => true
  end.

(** An instance of [Exception]: its class name and [str(e)].  Signals
    that derive from [BaseException] only ([KeyboardInterrupt],
    [SystemExit]) are not exceptions of this model. *)
Record exn : Type := Exn { exn_type : string; exn_msg : string }.

Definition str (e : exn) : string := exn_msg e.

(** [isinstance(e, cls)] for the classes the sources name in an [except]
    clause. *)
Definition isinstance (e : exn) (cls : string) : bool :=
  if String.eqb cls "Exception" then true
  else if String.eqb cls "ImportError"
       then String.eqb (exn_type e) "ImportError"
            || String.eqb (exn_type e) "ModuleNotFoundError"
  else String.eqb (exn_type e) cls.

(** How a call ends: it returns a value, raises, or never returns (a
    [Queue.put] on a full queue, a [join] on a thread that does not
    finish). *)
Inductive outcome (A : Type) : Type :=
| Returned (a : A)
| Raised (e : exn)
| Blocks.
Arguments Returned {A} a.
Arguments Raised {A} e.
Arguments Blocks {A}.

Definition M (S A : Type) : Type := S → outcome A * S.

Definition ret {S A} (a : A) : M S A := λ s, (Returned a, s).

Definition bind {S A B} (m : M S A) (k : A → M S B) : M S B :=
  λ s, match m s with
       | (Returned a, s') => k a s'
       | (Raised e, s') => (Raised e, s')
       | (Blocks, s') => (Blocks, s')
       end.

Definition raise {S A} (e : exn) : M S A := λ s, (Raised e, s).

Definition gets {S A} (f : S → A) : M S A := λ s, (Returned (f s), s).

Definition modify {S} (f : S → S) : M S unit := λ s, (Returned tt, f s).

(** [try: body / except cls as e: handler e].  State changes made by the
    body before it raised are kept, as in Python. *)
Definition try_except_cls {S A} (cls : string) (body : M S A)
    (handler : exn → M S A) : M S A :=
  λ s, match body s with
       | (Raised e, s') =>
           if isinstance e cls then handler e s' else (Raised e, s')
       | r => r
       end.

Definition try_except {S A} (body : M S A) (handler : exn → M S A)
    : M S A :=
  try_except_cls "Exception" body handler.

(** [if c: m] with no [else]. *)
Definition when {S} (c : bool) (m : M S unit) : M S unit :=
  if c then m else ret tt.

Definition is_raised {A} (o : outcome A) : bool :=
  match o with Raised _ => true | _ => false end.

End Py.

Import Py.

Notation "'let*' x ':=' m 'in' k" := (bind m (λ x, k))
  (at level 10, x name, m at level 100, k at level 200,
   format "'[v' 'let*'  x  :=  m  'in'  '/' k ']'").
Notation "m >> k" := (bind m (λ _, k))
  (at level 100, k at level 200, right associativity).

(** ** The world outside the modelled objects *)

(** A call that leaves the modelled code, as written at the call site:
    dotted callee, positional arguments (the receiver object first, for a
    method of a library object) and keyword arguments. *)
Record call : Type :=
  Call { callee : string; args : list pyval; kwargs : gmap string pyval }.

(** The calls made so far, what was printed, and the state of the
    environment. *)
Record World (D : Type) : Type :=
  MkWorld { log : list call; stdout : list string; dev : D }.
Arguments MkWorld {D} log stdout dev.
Arguments log {D} w.
Arguments stdout {D} w.
Arguments dev {D} w.

(** A method runs on its own object and the world. *)
Record State (Self D : Type) : Type :=
  MkState { self : Self; world : World D }.
Arguments MkState {Self D} self world.
Arguments self {Self D} s.
Arguments world {Self D} s.

Definition set_self {Self D} (f : Self → Self) (s : State Self D)
    : State Self D :=
  MkState (f (self s)) (world s).

(** The double quote character, for the Python literals that contain it. *)
Definition dq : string := String (Ascii.ascii_of_nat 34) "".

Section Effects.
Context {Self D : Type}.
Variable behave : call → D → outcome pyval * D.

(** The one effectful primitive: log the call, let the environment
    answer. *)
Definition ext (c : call) : M (State Self D) pyval :=
  λ s, let w := world s in
       let '(r, d') := behave c (dev w) in
       (r, MkState (self s) (MkWorld (log w ++ [c]) (stdout w) d')).

Definition ext_ (c : call) : M (State Self D) unit :=
  ext c >> ret tt.

(** [print(line)]. *)
Definition print (line : string) : M (State Self D) unit :=
  λ s, let w := world s in
       (Returned tt,
        MkState (self s) (MkWorld (log w) (stdout w ++ [line]) (dev w))).

End Effects.

(** ** [system_control.py]: class [SystemController] *)

Module SystemController.

(** The attributes the methods read.  ([self.win32api], [self.win32con] and
    [self.Xlib] are only ever written.) *)
Record object : Type :=
  MkObject {
    system : string;
    platform_supported : bool;
    supported_features : gmap string bool }.

Definition set_platform_supported (b : bool) (o : object) : object :=
  MkObject (system o) b (supported_features o).

Definition set_supported_features (f : gmap string bool) (o : object)
    : object :=
  MkObject (system o) (platform_supported o) f.

Section Methods.
Context {D : Type}.
Variable behave : call → D → outcome pyval * D.

(** How the interpreter formats [value] inside an f-string, taken as
    given: the text, or the exception raised instead.  [int_str] is
    [str(value)] of an [int], which is refused ([ValueError]) past the
    interpreter's limit on digits; [ratio_str] is [str(value/100)], where
    the division raises [OverflowError] when the quotient is beyond the
    floats. *)
Variable int_str : Z → string + exn.
Variable ratio_str : Z → string + exn.

#[local] Abbreviation St := (State object D).

(** The text of a formatted value, or its exception raised where the
    f-string stands. *)
Definition formatted (r : string + exn) : M St string :=
  match r with
  | inl text => ret text
  | inr e => raise e
  end.

(** [self.supported_features[k]]: a [KeyError] when the key is missing. *)
Definition feature (k : string) : M St bool :=
  λ s, match supported_features (self s) !! k with
       | Some b => (Returned b, s)
       | None => (Raised (Exn "KeyError" ("'" ++ k ++ "'")), s)
       end.

(** [subprocess.run(argv, capture_output=True)]. *)
Definition subprocess_run (argv : list string) : M St pyval :=
  ext behave (Call "subprocess.run" [PList (PStr <$> argv)]
                   {[ "capture_output" := PBool true ]}).

(** [os.system(cmd)]. *)
Definition os_system (cmd : string) : M St unit :=
  ext_ behave (Call "os.system" [PStr cmd] ∅).

(** [keyboard.press_and_release(hotkey)]. *)
Definition press_and_release (hotkey : string) : M St unit :=
  ext_ behave (Call "keyboard.press_and_release" [PStr hotkey] ∅).

(** [_setup_platform_specific_imports] (lines 36-64). *)
Definition _setup_platform_specific_imports : M St unit :=
  modify (set_self (set_platform_supported true)) >>
  modify (set_self (set_supported_features
    {[ "volume" := true; "brightness" := true; "power" := true;
       "window" := true; "process" := true ]})) >>
  try_except_cls "ImportError"
    (let* sys := gets (λ s, system (self s)) in
     if String.eqb sys "windows" then
       ext_ behave (Call "import" [PStr "win32api"] ∅) >>
       ext_ behave (Call "import" [PStr "win32con"] ∅)
     else if String.eqb sys "linux" then
       ext_ behave (Call "import" [PStr "Xlib"] ∅)
     else if String.eqb sys "darwin" then
       ret tt
     else
       modify (set_self (set_platform_supported false)) >>
       modify (set_self (λ o,
         set_supported_features ((λ _, false) <$> supported_features o) o)))
    (λ e,
       print ("Warning: Some platform-specific features may not be available: "
              ++ str e) >>
       modify (set_self (set_platform_supported false))).

(** [_validate_platform_support] (lines 66-87). *)
Definition _validate_platform_support : M St unit :=
  let* ok := gets (λ s, platform_supported (self s)) in
  if negb ok then ret tt else
  let* sys := gets (λ s, system (self s)) in
  try_except
    (if String.eqb sys "darwin" then
       subprocess_run ["osascript"; "-e"; "get volume settings"] >> ret tt
     else if String.eqb sys "linux" then
       subprocess_run ["amixer"; "-D"; "pulse"; "sset"; "Master"; "0%"]
       >> ret tt
     else ret tt)
    (λ _, modify (set_self (λ o,
       set_supported_features (<["volume" := false]> (supported_features o)) o)))
  >>
  try_except
    (if String.eqb sys "darwin" then
       subprocess_run
         ["osascript"; "-e";
          "tell application " ++ dq ++ "System Events" ++ dq
          ++ " to get brightness"] >> ret tt
     else if String.eqb sys "linux" then
       subprocess_run
         ["xrandr"; "--output";
          "$(xrandr -q | grep " ++ dq ++ " connected" ++ dq ++ " | cut -d "
          ++ dq ++ " " ++ dq ++ " -f1)";
          "--brightness"; "1"] >> ret tt
     else ret tt)
    (λ _, modify (set_self (λ o,
       set_supported_features
         (<["brightness" := false]> (supported_features o)) o))).

(** [__init__] (lines 30-34); [sys] is the module-level
    [platform.system().lower()]. *)
Definition __init__ (sys : string) : M St unit :=
  modify (set_self (λ o,
    MkObject sys (platform_supported o) (supported_features o))) >>
  _setup_platform_specific_imports >>
  _validate_platform_support.

(** [SystemController()]: [__init__] on a fresh object. *)
Definition new (sys : string) (w : World D) : outcome object * World D :=
  match __init__ sys (MkState (MkObject "" false ∅) w) with
  | (Returned _, s) => (Returned (self s), world s)
  | (Raised e, s) => (Raised e, world s)
  | (Blocks, s) => (Blocks, world s)
  end.

(** [_execute_osascript] (lines 89-104).  [result] is the library's
    [CompletedProcess]; reading and stripping its output is a call on that
    object. *)
Definition _execute_osascript (script : string) : M St pyval :=
  try_except
    (let* result :=
       ext behave (Call "subprocess.run"
                        [PList [PStr "osascript"; PStr "-e"; PStr script]]
                        {[ "capture_output" := PBool true;
                           "text" := PBool true ]}) in
     ext behave (Call "result.stdout.strip" [result] ∅))
    (λ e, ret (PStr ("Error executing AppleScript: " ++ str e))).

(** The [if]/[elif] chain inside the [try] of [control_volume]
    (lines 121-144). *)
Definition volume_actions (sys action : string) (value : option Z)
    : M St unit :=
  if String.eqb sys "windows" then
    if String.eqb action "mute" then press_and_release "volume mute"
    else if String.eqb action "up" then press_and_release "volume up"
    else if String.eqb action "down" then press_and_release "volume down"
    else if String.eqb action "set" then
      match value with
      | Some _ =>
          subprocess_run
            ["powershell"; "-Command";
             "(New-Object -ComObject WScript.Shell).SendKeys([char]173); "
             ++ "(New-Object -ComObject WScript.Shell).SendKeys([char]174); "
             ++ "(New-Object -ComObject WScript.Shell).SendKeys([char]175);"]
          >> ret tt
      | None => ret tt
      end
    else ret tt
  else if String.eqb sys "darwin" then
    if String.eqb action "mute" then
      _execute_osascript "set volume output muted true" >> ret tt
    else if String.eqb action "unmute" then
      _execute_osascript "set volume output muted false" >> ret tt
    else if String.eqb action "set" then
      match value with
      | Some v =>
          let* text := formatted (int_str v) in
          _execute_osascript ("set volume output volume " ++ text)
          >> ret tt
      | None => ret tt
      end
    else ret tt
  else if String.eqb sys "linux" then
    if String.eqb action "mute" then
      os_system "amixer -D pulse sset Master mute"
    else if String.eqb action "unmute" then
      os_system "amixer -D pulse sset Master unmute"
    else if String.eqb action "set" then
      match value with
      | Some v =>
          let* text := formatted (int_str v) in
          os_system ("amixer -D pulse sset Master " ++ text ++ "%")
      | None => ret tt
      end
    else ret tt
  else ret tt.

(** [control_volume] (lines 106-147). *)
Definition control_volume (action : string) (value : option Z)
    : M St string :=
  let* supported := feature "volume" in
  if negb supported then
    ret "Volume control is not supported on this system"
  else
    try_except
      (let* sys := gets (λ s, system (self s)) in
       volume_actions sys action value >>
       ret ("Volume " ++ action ++ " successful"))
      (λ e, ret ("Error controlling volume: " ++ str e)).

(** The [if]/[elif] chain inside the [try] of [power_management]
    (lines 195-217). *)
Definition power_actions (sys action : string) : M St unit :=
  if String.eqb sys "windows" then
    if String.eqb action "sleep" then
      os_system "rundll32.exe powrprof.dll,SetSuspendState 0,1,0"
    else if String.eqb action "shutdown" then os_system "shutdown /s /t 0"
    else if String.eqb action "restart" then os_system "shutdown /r /t 0"
    else if String.eqb action "hibernate" then os_system "shutdown /h"
    else ret tt
  else if String.eqb sys "darwin" then
    if String.eqb action "sleep" then
      _execute_osascript
        ("tell application " ++ dq ++ "System Events" ++ dq ++ " to sleep")
      >> ret tt
    else if String.eqb action "shutdown" then
      _execute_osascript
        ("tell application " ++ dq ++ "System Events" ++ dq
         ++ " to shut down")
      >> ret tt
    else if String.eqb action "restart" then
      _execute_osascript
        ("tell application " ++ dq ++ "System Events" ++ dq ++ " to restart")
      >> ret tt
    else ret tt
  else if String.eqb sys "linux" then
    if String.eqb action "sleep" then os_system "systemctl suspend"
    else if String.eqb action "shutdown" then os_system "shutdown -h now"
    else if String.eqb action "restart" then os_system "shutdown -r now"
    else ret tt
  else ret tt.

(** [power_management] (lines 181-220). *)
Definition power_management (action : string) : M St string :=
  let* supported := feature "power" in
  if negb supported then
    ret "Power management is not supported on this system"
  else
    try_except
      (let* sys := gets (λ s, system (self s)) in
       power_actions sys action >>
       ret ("Power management action " ++ action ++ " initiated"))
      (λ e, ret ("Error in power management: " ++ str e)).

(** The [if]/[elif] chain inside the [try] of [control_brightness]
    (lines 164-176).  On macOS the inner [except:] has no class: it
    catches whatever the f-string or [os.system] raised, and formats the
    value again. *)
Definition brightness_actions (sys action : string) (value : option Z)
    : M St unit :=
  if String.eqb sys "windows" then
    if String.eqb action "set" then
      match value with
      | Some v =>
          let* text := formatted (int_str v) in
          subprocess_run
            ["powershell"; "-Command";
             "(Get-WmiObject -Namespace root/WMI -Class "
             ++ "WmiMonitorBrightnessMethods).WmiSetBrightness(1,"
             ++ text ++ ")"]
          >> ret tt
      | None => ret tt
      end
    else ret tt
  else if String.eqb sys "darwin" then
    if String.eqb action "set" then
      match value with
      | Some v =>
          try_except
            (let* text := formatted (ratio_str v) in
             os_system ("brightness " ++ text))
            (λ _,
               let* text := formatted (ratio_str v) in
               _execute_osascript
                 ("tell application " ++ dq ++ "System Events" ++ dq
                  ++ " to set brightness to " ++ text)
               >> ret tt)
      | None => ret tt
      end
    else ret tt
  else if String.eqb sys "linux" then
    if String.eqb action "set" then
      match value with
      | Some v =>
          let* text := formatted (ratio_str v) in
          os_system
            ("xrandr --output $(xrandr -q | grep " ++ dq ++ " connected" ++ dq
             ++ " | cut -d " ++ dq ++ " " ++ dq ++ " -f1) --brightness "
             ++ text)
      | None => ret tt
      end
    else ret tt
  else ret tt.

(** [control_brightness] (lines 149-179). *)
Definition control_brightness (action : string) (value : option Z)
    : M St string :=
  let* supported := feature "brightness" in
  if negb supported then
    ret "Brightness control is not supported on this system"
  else
    try_except
      (let* sys := gets (λ s, system (self s)) in
       brightness_actions sys action value >>
       ret ("Brightness " ++ action ++ " successful"))
      (λ e, ret ("Error controlling brightness: " ++ str e)).

(** [windows[0]]: the first element of a list; on anything else the
    subscript is a call on that object. *)
Definition first_item (v : pyval) : M St pyval :=
  match v with
  | PList (x :: _) => ret x
  | _ => ext behave (Call "__getitem__" [v; PInt 0] ∅)
  end.

(** The body of the [try] of [window_management] (lines 237-262);
    [window_name] is [None] or a string. *)
Definition window_body (action : string) (window_name : option string)
    : M St string :=
  match window_name with
  | Some name =>
      if String.eqb name "" then ret "No window specified" else
      let* sys := gets (λ s, system (self s)) in
      if String.eqb sys "darwin" then
        (if String.eqb action "minimize" then
           _execute_osascript
             ("tell application " ++ dq ++ "System Events" ++ dq
              ++ " to set visible of process " ++ dq ++ name ++ dq
              ++ " to false") >> ret tt
         else if String.eqb action "maximize" then
           _execute_osascript
             ("tell application " ++ dq ++ "System Events" ++ dq
              ++ " to set visible of process " ++ dq ++ name ++ dq
              ++ " to true") >> ret tt
         else if String.eqb action "close" then
           _execute_osascript
             ("tell application " ++ dq ++ name ++ dq ++ " to quit")
           >> ret tt
         else if String.eqb action "focus" then
           _execute_osascript
             ("tell application " ++ dq ++ name ++ dq ++ " to activate")
           >> ret tt
         else ret tt) >>
        ret ("Window " ++ action ++ " successful")
      else
        let* windows :=
          ext behave (Call "pyautogui.getWindowsWithTitle" [PStr name] ∅) in
        if negb (truthy windows) then
          ret ("Window '" ++ name ++ "' not found")
        else
          let* window := first_item windows in
          (if String.eqb action "minimize" then
             ext_ behave (Call "window.minimize" [window] ∅)
           else if String.eqb action "maximize" then
             ext_ behave (Call "window.maximize" [window] ∅)
           else if String.eqb action "close" then
             ext_ behave (Call "window.close" [window] ∅)
           else if String.eqb action "focus" then
             ext_ behave (Call "window.activate" [window] ∅)
           else ret tt) >>
          ret ("Window " ++ action ++ " successful")
  | None => ret "No window specified"
  end.

(** [window_management] (lines 222-264). *)
Definition window_management (action : string) (window_name : option string)
    : M St string :=
  let* supported := feature "window" in
  if negb supported then
    ret "Window management is not supported on this system"
  else
    try_except (window_body action window_name)
      (λ e, ret ("Error in window management: " ++ str e)).

End Methods.

End SystemController.

(** ** [ai_control.py]: class [AIController] *)

Module AIController.

(** An entry of [self.messages]: [{"role": ..., "content": ...}]. *)
Record message : Type := Message { role : string; content : string }.

(** A block of captured samples ([indata], an [int16] array). *)
Definition frame : Type := list Z.

(** [queue.Queue]: [maxsize <= 0] means no bound. *)
Record Queue : Type := MkQueue { maxsize : Z; items : list frame }.

(** [Queue()]. *)
Definition Queue_new : Queue := MkQueue 0 [].

Definition qsize (q : Queue) : nat := length (items q).

(** [q.put(x)] with the default [block=True, timeout=None]: on a full
    bounded queue the caller waits for a consumer; [None] stands for that
    wait. *)
Definition put (q : Queue) (x : frame) : option Queue :=
  if ((0 <? maxsize q) && (maxsize q <=? Z.of_nat (qsize q)))%Z then None
  else Some (MkQueue (maxsize q) (items q ++ [x])).

(** [sounddevice.CallbackFlags]: whether any flag is set, and its [str]. *)
Record CallbackFlags : Type :=
  MkFlags { flags_set : bool; flags_str : string }.

Record object : Type :=
  MkObject {
    api_key : string;
    device : string;
    initial_prompt : string;
    mode : string;
    sample_rate : Z;
    channels : Z;
    audio_queue : Queue;
    is_recording : bool;
    ws : pyval;
    ws_thread : pyval;
    (** [None]: the attribute does not exist ([hasattr] is false). *)
    audio_stream : option pyval;
    messages : list message }.

Definition set_audio_queue (q : Queue) (o : object) : object :=
  MkObject (api_key o) (device o) (initial_prompt o) (mode o) (sample_rate o)
    (channels o) q (is_recording o) (ws o) (ws_thread o) (audio_stream o)
    (messages o).

Definition set_is_recording (b : bool) (o : object) : object :=
  MkObject (api_key o) (device o) (initial_prompt o) (mode o) (sample_rate o)
    (channels o) (audio_queue o) b (ws o) (ws_thread o) (audio_stream o)
    (messages o).

Definition set_ws (v : pyval) (o : object) : object :=
  MkObject (api_key o) (device o) (initial_prompt o) (mode o) (sample_rate o)
    (channels o) (audio_queue o) (is_recording o) v (ws_thread o)
    (audio_stream o) (messages o).

Definition set_ws_thread (v : pyval) (o : object) : object :=
  MkObject (api_key o) (device o) (initial_prompt o) (mode o) (sample_rate o)
    (channels o) (audio_queue o) (is_recording o) (ws o) v (audio_stream o)
    (messages o).

Definition set_audio_stream (v : pyval) (o : object) : object :=
  MkObject (api_key o) (device o) (initial_prompt o) (mode o) (sample_rate o)
    (channels o) (audio_queue o) (is_recording o) (ws o) (ws_thread o)
    (Some v) (messages o).

(** [_initialize_messages] (lines 130-157).  [system_content] is the
    formatted system prompt (it embeds the device and the clock). *)
Definition _initialize_messages (system_content initial_prompt : string)
    : list message :=
  let messages := [Message "system" system_content] in
  if negb (String.eqb initial_prompt "") then
    messages ++ [Message "user" initial_prompt]
             ++ [Message "assistant" "I understand. How can I help you?"]
  else messages.

(** The attributes [__init__] (lines 49-79) sets, once the five
    collaborators are constructed. *)
Definition new (api_key device initial_prompt mode system_content : string)
    : object :=
  MkObject api_key device initial_prompt mode 16000 1 Queue_new false
    PNone PNone None (_initialize_messages system_content initial_prompt).

(** *** The collaborators *)

(** A collaborator held in an attribute of the controller: the attribute,
    the class and the methods the class defines in its source file (the
    dispatchers look up no other attribute of these objects). *)
Record collaborator : Type :=
  Collaborator { attr : string; class : string; methods : list string }.

Definition system_controller : collaborator :=
  Collaborator "system_controller" "SystemController"
    ["__init__"; "_setup_platform_specific_imports";
     "_validate_platform_support"; "_execute_osascript"; "control_volume";
     "control_brightness"; "power_management"; "window_management";
     "process_control"; "get_system_info"].

Definition file_operations : collaborator :=
  Collaborator "file_operations" "FileOperations"
    ["create_file"; "read_file"; "write_file"; "append_file"; "delete_file";
     "create_directory"; "list_directory"; "delete_directory";
     "get_file_info"; "get_directory_size"].

Definition terminal_operations : collaborator :=
  Collaborator "terminal_operations" "TerminalOperations"
    ["__init__"; "_setup_logger"; "_check_docker"; "execute_command";
     "execute_command_with_output"; "start_process"; "stop_process";
     "list_processes"; "get_system_info"; "get_network_info"; "ssh_connect";
     "ssh_execute"; "build_project"; "_detect_project_type";
     "_build_python_project"; "_build_node_project"; "_build_java_project";
     "_build_docker_project"; "generate_3d_model"; "vibe_code"].

Definition web_operations : collaborator :=
  Collaborator "web_operations" "WebOperations"
    ["search_web"; "search_images"; "search_videos"; "search_news";
     "search_academic"; "download_file"; "download_image"; "download_video"].

Definition media_operations : collaborator :=
  Collaborator "media_operations" "MediaOperations"
    ["__init__"; "generate_image"; "generate_audio"; "process_image";
     "process_video"; "process_audio"; "create_video"; "generate_3d_model";
     "record_audio"; "play_audio"; "extract_frames"].

Definition has_method (c : collaborator) (name : string) : bool :=
  bool_decide (name ∈ methods c).

(** The call [self.<attr>.<name>(...)], as the log shows it. *)
Definition method_call (c : collaborator) (name : string)
    (args : list pyval) (kwargs : gmap string pyval) : call :=
  Call ("self." ++ attr c ++ "." ++ name) args kwargs.

(** [params.get(k)]. *)
Definition get (params : gmap string pyval) (k : string) : pyval :=
  default PNone (params !! k).

(** Three more attributes [__init__] sets (lines 53-56); no method writes
    them. *)
Record options : Type :=
  MkOptions {
    include_date : bool;
    include_time : bool;
    function_calling : bool }.

(** [sep.join(parts)]. *)
Fixpoint join (sep : string) (parts : list string) : string :=
  match parts with
  | [] => ""
  | x :: rest =>
      match rest with
      | [] => x
      | _ :: _ => x ++ sep ++ join sep rest
      end
  end.

(** [append_tools_to_message] (lines 159-177); [date] and [time] are the
    clock reading formatted with '%Y-%m-%d' and '%H:%M:%S'. *)
Definition append_tools_to_message (opts : options) (date time : string)
    (message : string) : string :=
  let additions :=
    ((if include_date opts then [("Date: " ++ date)%string] else [])
     ++ (if include_time opts then [("Time: " ++ time)%string] else []))%list
  in
  match additions with
  | [] => message
  | _ :: _ => message ++ " (" ++ join " | " additions ++ ")"
  end.

(** The two events [send_text_message] builds (lines 188-204). *)
Definition conversation_event (role full_text : string) : pyval :=
  PDict [("type", PStr "conversation.item.create");
         ("item",
          PDict [("type", PStr "message");
                 ("role", PStr role);
                 ("content",
                  PList [PDict [("type", PStr "input_text");
                                ("text", PStr full_text)]])])].

Definition response_create_event : pyval :=
  PDict [("type", PStr "response.create");
         ("response", PDict [("modalities", PList [PStr "text"])])].

(** The [tools] list of [_append_tools_to_message] (lines 226-250). *)
Definition tools : pyval :=
  PList
    [PDict
       [("type", PStr "function");
        ("function",
         PDict
           [("name", PStr "control_volume");
            ("description", PStr "Control system volume");
            ("parameters",
             PDict
               [("type", PStr "object");
                ("properties",
                 PDict
                   [("action",
                     PDict
                       [("type", PStr "string");
                        ("enum",
                         PList [PStr "mute"; PStr "unmute"; PStr "up";
                                PStr "down"; PStr "set"]);
                        ("description", PStr "Volume control action")]);
                    ("value",
                     PDict
                       [("type", PStr "integer");
                        ("description",
                         PStr "Volume value (0-100) for 'set' action")])]);
                ("required", PList [PStr "action"])])])]].

(** [_get_openai_response] (lines 254-258): a placeholder. *)
Definition _get_openai_response (message : string) : string :=
  "Response from OpenAI".

Section Methods.
Context {D : Type}.
Variable behave : call → D → outcome pyval * D.

#[local] Abbreviation St := (State object D).

(** A call of method [name] of [self.<attr>], with positional and keyword
    arguments: the attribute lookup fails with
    [AttributeError] when the class has no such method; otherwise the call
    leaves the controller. *)
Definition invoke (c : collaborator) (name : string) (args : list pyval)
    (kwargs : gmap string pyval) : M St pyval :=
  if has_method c name then ext behave (method_call c name args kwargs)
  else raise (Exn "AttributeError"
                ("'" ++ class c ++ "' object has no attribute '" ++ name
                 ++ "'")).

(** The [try] block of [handle_system_control] (lines 272-283). *)
Definition system_control_body (action : string)
    (params : gmap string pyval) : M St pyval :=
  if String.eqb action "volume" then
    invoke system_controller "control_volume" [] params
  else if String.eqb action "brightness" then
    invoke system_controller "control_brightness" [] params
  else if String.eqb action "power" then
    invoke system_controller "power_management" [] params
  else if String.eqb action "window" then
    invoke system_controller "window_management" [] params
  else if String.eqb action "process" then
    invoke system_controller "process_control" [] params
  else ret (PStr ("Unknown action: " ++ action)).

(** [handle_system_control] (lines 269-285). *)
Definition handle_system_control (action : string)
    (params : gmap string pyval) : M St pyval :=
  try_except (system_control_body action params)
    (λ e, ret (PStr ("Error executing " ++ action ++ ": " ++ str e))).

(** The [try] block of [handle_file_operation] (lines 290-310). *)
Definition file_operation_body (operation : string)
    (params : gmap string pyval) : M St pyval :=
  let call1 name k := invoke file_operations name [get params k] ∅ in
  let call2 name k1 k2 :=
    invoke file_operations name [get params k1; get params k2] ∅ in
  if String.eqb operation "create_file" then
    call2 "create_file" "path" "content"
  else if String.eqb operation "read_file" then call1 "read_file" "path"
  else if String.eqb operation "write_file" then
    call2 "write_file" "path" "content"
  else if String.eqb operation "append_file" then
    call2 "append_file" "path" "content"
  else if String.eqb operation "delete_file" then call1 "delete_file" "path"
  else if String.eqb operation "create_directory" then
    call1 "create_directory" "path"
  else if String.eqb operation "list_directory" then
    call1 "list_directory" "path"
  else if String.eqb operation "delete_directory" then
    call1 "delete_directory" "path"
  else if String.eqb operation "get_file_info" then
    call1 "get_file_info" "path"
  else if String.eqb operation "get_directory_size" then
    call1 "get_directory_size" "path"
  else ret (PStr "Invalid file operation").

(** [handle_file_operation] (lines 287-312). *)
Definition handle_file_operation (operation : string)
    (params : gmap string pyval) : M St pyval :=
  try_except (file_operation_body operation params)
    (λ e, ret (PStr ("Error in file operation: " ++ str e))).

(** The [try] block of [handle_terminal_operation] (lines 317-331). *)
Definition terminal_operation_body (operation : string)
    (params : gmap string pyval) : M St pyval :=
  if String.eqb operation "execute_command" then
    invoke terminal_operations "execute_command" [get params "command"] ∅
  else if String.eqb operation "execute_command_with_output" then
    invoke terminal_operations "execute_command_with_output"
      [get params "command"] ∅
  else if String.eqb operation "start_process" then
    invoke terminal_operations "start_process" [get params "process_name"] ∅
  else if String.eqb operation "stop_process" then
    invoke terminal_operations "stop_process" [get params "process_name"] ∅
  else if String.eqb operation "list_processes" then
    invoke terminal_operations "list_processes" [] ∅
  else if String.eqb operation "get_system_info" then
    invoke terminal_operations "get_system_info" [] ∅
  else if String.eqb operation "get_network_info" then
    invoke terminal_operations "get_network_info" [] ∅
  else ret (PStr "Invalid terminal operation").

(** [handle_terminal_operation] (lines 314-333). *)
Definition handle_terminal_operation (operation : string)
    (params : gmap string pyval) : M St pyval :=
  try_except (terminal_operation_body operation params)
    (λ e, ret (PStr ("Error in terminal operation: " ++ str e))).

(** The [try] block of [handle_web_operation] (lines 338-354). *)
Definition web_operation_body (operation : string)
    (params : gmap string pyval) : M St pyval :=
  let search name := invoke web_operations name [get params "query"] ∅ in
  let download name :=
    invoke web_operations name [get params "url"; get params "path"] ∅ in
  if String.eqb operation "search_web" then search "search_web"
  else if String.eqb operation "search_images" then search "search_images"
  else if String.eqb operation "search_videos" then search "search_videos"
  else if String.eqb operation "search_news" then search "search_news"
  else if String.eqb operation "search_academic" then
    search "search_academic"
  else if String.eqb operation "download_file" then download "download_file"
  else if String.eqb operation "download_image" then
    download "download_image"
  else if String.eqb operation "download_video" then
    download "download_video"
  else ret (PStr "Invalid web operation").

(** [handle_web_operation] (lines 335-356). *)
Definition handle_web_operation (operation : string)
    (params : gmap string pyval) : M St pyval :=
  try_except (web_operation_body operation params)
    (λ e, ret (PStr ("Error in web operation: " ++ str e))).

(** The [try] block of [handle_media_operation] (lines 361-373). *)
Definition media_operation_body (operation : string)
    (params : gmap string pyval) : M St pyval :=
  if String.eqb operation "generate_image" then
    invoke media_operations "generate_image" [get params "prompt"] ∅
  else if String.eqb operation "edit_image" then
    invoke media_operations "edit_image"
      [get params "path"; get params "instruction"] ∅
  else if String.eqb operation "analyze_image" then
    invoke media_operations "analyze_image" [get params "path"] ∅
  else if String.eqb operation "generate_audio" then
    invoke media_operations "generate_audio" [get params "text"] ∅
  else if String.eqb operation "transcribe_audio" then
    invoke media_operations "transcribe_audio" [get params "path"] ∅
  else if String.eqb operation "edit_audio" then
    invoke media_operations "edit_audio"
      [get params "path"; get params "instruction"] ∅
  else ret (PStr "Invalid media operation").

(** [handle_media_operation] (lines 358-375). *)
Definition handle_media_operation (operation : string)
    (params : gmap string pyval) : M St pyval :=
  try_except (media_operation_body operation params)
    (λ e, ret (PStr ("Error in media operation: " ++ str e))).

(** [_audio_callback] (lines 377-381); the [frames] and [time] arguments
    are not used.  [indata.copy()] is a fresh array with the same
    samples. *)
Definition _audio_callback (indata : frame) (status : CallbackFlags)
    : M St unit :=
  when (flags_set status)
    (print ("Audio callback status: " ++ flags_str status)) >>
  let* q := gets (λ s, audio_queue (self s)) in
  match put q indata with
  | Some q' => modify (set_self (set_audio_queue q'))
  | None => λ s, (Blocks, s)
  end.

(** [start_realtime] (lines 383-411). *)
Definition start_realtime : M St unit :=
  let* o := gets self in
  if negb (String.eqb (mode o) "realtime") then ret tt else
  let* stream :=
    ext behave (Call "sd.InputStream" []
      {[ "samplerate" := PInt (sample_rate o);
         "channels" := PInt (channels o);
         "dtype" := PRef "np.int16";
         "callback" := PRef "self._audio_callback" ]}) in
  modify (set_self (set_audio_stream stream)) >>
  let* sock :=
    ext behave (Call "websocket.WebSocketApp"
      [PStr "wss://api.openai.com/v1/audio/speech"]
      {[ "header" :=
           PDict [("Authorization", PStr ("Bearer " ++ api_key o))];
         "on_message" := PRef "self._on_message";
         "on_error" := PRef "self._on_error";
         "on_close" := PRef "self._on_close" ]}) in
  modify (set_self (set_ws sock)) >>
  let* thread :=
    ext behave (Call "threading.Thread" []
      {[ "target" := PMethod sock "run_forever" ]}) in
  modify (set_self (set_ws_thread thread)) >>
  ext_ behave (Call "setattr" [thread; PStr "daemon"; PBool true] ∅) >>
  ext_ behave (Call "self.ws_thread.start" [thread] ∅) >>
  modify (set_self (set_is_recording true)) >>
  ext_ behave (Call "self.audio_stream.start" [stream] ∅).

(** [stop_realtime] (lines 413-422). *)
Definition stop_realtime : M St unit :=
  modify (set_self (set_is_recording false)) >>
  let* stream := gets (λ s, audio_stream (self s)) in
  match stream with
  | Some a =>
      ext_ behave (Call "self.audio_stream.stop" [a] ∅) >>
      ext_ behave (Call "self.audio_stream.close" [a] ∅)
  | None => ret tt
  end >>
  let* sock := gets (λ s, ws (self s)) in
  when (truthy sock) (ext_ behave (Call "self.ws.close" [sock] ∅)) >>
  let* thread := gets (λ s, ws_thread (self s)) in
  when (truthy thread) (ext_ behave (Call "self.ws_thread.join" [thread] ∅)).

(** [json.dumps] and [json.loads], Python's [str()], and the exception
    the interpreter raises when an operator ([in], [[]]) does not apply to
    a value: taken as given. *)
Variable json_dumps : pyval → string.
Variable json_loads : string → outcome pyval.
Variable py_str : pyval → string.
Variable builtin_error : string → pyval → exn.

(** How a value reads inside an f-string. *)
Definition text_of (v : pyval) : string :=
  match v with
  | PStr s => s
  | _ => py_str v
  end.

(** [self.ws.send(json.dumps(event))]: the attribute lookup comes first and
    fails on [None]. *)
Definition ws_send (event : pyval) : M St unit :=
  let* sock := gets (λ s, ws (self s)) in
  match sock with
  | PNone =>
      raise (Exn "AttributeError"
               "'NoneType' object has no attribute 'send'")
  | _ => ext_ behave (Call "self.ws.send" [sock; PStr (json_dumps event)] ∅)
  end.

(** [send_text_message] (lines 179-205). *)
Definition send_text_message (opts : options) (date time : string)
    (message role : string) : M St unit :=
  let full_text := append_tools_to_message opts date time message in
  ws_send (conversation_event role full_text) >>
  ws_send response_create_event.

(** [_append_tools_to_message] (lines 224-252). *)
Definition _append_tools_to_message (prompt : string) : string :=
  prompt ++ String (Ascii.ascii_of_nat 10) (String (Ascii.ascii_of_nat 10) "")
  ++ "Available functions: " ++ json_dumps tools.

(** [_handle_system_control] (lines 260-267): the [try] block is [pass]. *)
Definition _handle_system_control (response : string) : M St unit :=
  try_except (ret tt)
    (λ e, print ("Error handling system control: " ++ str e)).

(** [ask_sync] (lines 207-222). *)
Definition ask_sync (opts : options) (prompt : string) : M St string :=
  try_except
    (let message := _append_tools_to_message prompt in
     let response := _get_openai_response message in
     when (function_calling opts) (_handle_system_control response) >>
     ret response)
    (λ e, ret ("Error: " ++ str e)).

(** [k in data], for a string [k]: a key of a dict, an element of a list,
    a substring of a string. *)
Definition contains (k : string) (data : pyval) : M St bool :=
  match data with
  | PDict d => ret (bool_decide (k ∈ d.*1))
  | PList l =>
      ret (existsb (λ x, match x with
                         | PStr s => String.eqb s k
                         | _ => false
                         end) l)
  | PStr s => ret (bool_decide (is_Some (String.index 0 k s)))
  | _ => raise (builtin_error "in" data)
  end.

(** [data[k]], for a string [k]. *)
Definition getitem (k : string) (data : pyval) : M St pyval :=
  match data with
  | PDict d =>
      match list_find (λ kv, kv.1 = k) d with
      | Some (_, (_, v)) => ret v
      | None => raise (Exn "KeyError" ("'" ++ k ++ "'"))
      end
  | _ => raise (builtin_error "[]" data)
  end.

(** [_on_message] (lines 424-436). *)
Definition _on_message (message : string) : M St unit :=
  try_except
    (let* data := (λ s, (json_loads message, s)) in
     let* has_text := contains "text" data in
     if has_text then
       let* text := getitem "text" data in
       print ("AI: " ++ text_of text)
     else
       let* has_audio := contains "audio" data in
       if has_audio then
         let* audio := getitem "audio" data in
         let* audio_data := ext behave (Call "base64.b64decode" [audio] ∅) in
         let* samples :=
           ext behave (Call "np.frombuffer" [audio_data]
                            {[ "dtype" := PRef "np.int16" ]}) in
         let* rate := gets (λ s, sample_rate (self s)) in
         ext_ behave (Call "sd.play" [samples; PInt rate] ∅) >>
         ext_ behave (Call "sd.wait" [] ∅)
       else ret tt)
    (λ e, print ("Error processing message: " ++ str e)).

(** [_on_error] (lines 438-440). *)
Definition _on_error (error : pyval) : M St unit :=
  print ("WebSocket error: " ++ text_of error).

(** [_on_close] (lines 442-444). *)
Definition _on_close : M St unit :=
  print "WebSocket connection closed".

End Methods.

(** *** The registry [self.available_functions] (lines 82-128) *)

(** The five bound methods the registry holds. *)
Inductive handler : Type :=
| Handle_system_control
| Handle_file_operation
| Handle_terminal_operation
| Handle_web_operation
| Handle_media_operation.

#[global] Instance handler_eq_dec : EqDecision handler.
Proof. solve_decision. Defined.

(** Calling a registry value: [handler(operation, params)]. *)
Definition run_handler {D : Type} (behave : call → D → outcome pyval * D)
    (h : handler) : string → gmap string pyval → M (State object D) pyval :=
  match h with
  | Handle_system_control => handle_system_control behave
  | Handle_file_operation => handle_file_operation behave
  | Handle_terminal_operation => handle_terminal_operation behave
  | Handle_web_operation => handle_web_operation behave
  | Handle_media_operation => handle_media_operation behave
  end.

(** The [key: value] pairs of the dictionary display, in source order. *)
Definition available_functions_items : list (string * handler) :=
  [ ("control_volume", Handle_system_control);
    ("control_brightness", Handle_system_control);
    ("power_management", Handle_system_control);
    ("window_management", Handle_system_control);
    ("process_control", Handle_system_control);
    ("create_file", Handle_file_operation);
    ("read_file", Handle_file_operation);
    ("write_file", Handle_file_operation);
    ("append_file", Handle_file_operation);
    ("delete_file", Handle_file_operation);
    ("create_directory", Handle_file_operation);
    ("list_directory", Handle_file_operation);
    ("delete_directory", Handle_file_operation);
    ("get_file_info", Handle_file_operation);
    ("get_directory_size", Handle_file_operation);
    ("execute_command", Handle_terminal_operation);
    ("execute_command_with_output", Handle_terminal_operation);
    ("start_process", Handle_terminal_operation);
    ("stop_process", Handle_terminal_operation);
    ("list_processes", Handle_terminal_operation);
    ("get_system_info", Handle_terminal_operation);
    ("get_network_info", Handle_terminal_operation);
    ("search_web", Handle_web_operation);
    ("search_images", Handle_web_operation);
    ("search_videos", Handle_web_operation);
    ("search_news", Handle_web_operation);
    ("search_academic", Handle_web_operation);
    ("download_file", Handle_web_operation);
    ("download_image", Handle_web_operation);
    ("download_video", Handle_web_operation);
    ("generate_image", Handle_media_operation);
    ("edit_image", Handle_media_operation);
    ("analyze_image", Handle_media_operation);
    ("generate_audio", Handle_media_operation);
    ("transcribe_audio", Handle_media_operation);
    ("edit_audio", Handle_media_operation) ].

(** A dictionary display evaluates its pairs left to right; a repeated key
    keeps the last value. *)
Definition dict_display {V} (kvs : list (string * V)) : gmap string V :=
  foldl (λ m kv, <[kv.1 := kv.2]> m) ∅ kvs.

Definition available_functions : gmap string handler :=
  dict_display available_functions_items.

(** The names registered under one handler. *)
Definition group (h : handler) : list string :=
  (filter (λ kv, kv.2 = h) available_functions_items).*1.

(** The collaborator whose methods a handler calls. *)
Definition collaborator_of (h : handler) : collaborator :=
  match h with
  | Handle_system_control => system_controller
  | Handle_file_operation => file_operations
  | Handle_terminal_operation => terminal_operations
  | Handle_web_operation => web_operations
  | Handle_media_operation => media_operations
  end.

(** The keys each branch of the four dispatchers that read their
    arguments with [params.get] names, in the order the branch passes them
    (lines 291-309, 318-330, 339-353 and 362-372). *)
Definition positional_parameters : list (string * list string) :=
  [ ("create_file", ["path"; "content"]);
    ("read_file", ["path"]);
    ("write_file", ["path"; "content"]);
    ("append_file", ["path"; "content"]);
    ("delete_file", ["path"]);
    ("create_directory", ["path"]);
    ("list_directory", ["path"]);
    ("delete_directory", ["path"]);
    ("get_file_info", ["path"]);
    ("get_directory_size", ["path"]);
    ("execute_command", ["command"]);
    ("execute_command_with_output", ["command"]);
    ("start_process", ["process_name"]);
    ("stop_process", ["process_name"]);
    ("list_processes", []);
    ("get_system_info", []);
    ("get_network_info", []);
    ("search_web", ["query"]);
    ("search_images", ["query"]);
    ("search_videos", ["query"]);
    ("search_news", ["query"]);
    ("search_academic", ["query"]);
    ("download_file", ["url"; "path"]);
    ("download_image", ["url"; "path"]);
    ("download_video", ["url"; "path"]);
    ("generate_image", ["prompt"]);
    ("edit_image", ["path"; "instruction"]);
    ("analyze_image", ["path"]);
    ("generate_audio", ["text"]);
    ("transcribe_audio", ["path"]);
    ("edit_audio", ["path"; "instruction"]) ].

Fixpoint keys_of (operation : string) (table : list (string * list string))
    : list string :=
  match table with
  | [] => []
  | (name, keys) :: rest =>
      if String.eqb operation name then keys else keys_of operation rest
  end.

Definition parameter_keys (operation : string) : list string :=
  keys_of operation positional_parameters.

End AIController.

(** The audio subsystem firing the capture callback once per block. *)
Fixpoint fire_callbacks {D : Type}
    (evs : list (AIController.frame * AIController.CallbackFlags))
    : M (State AIController.object D) unit :=
  match evs with
  | [] => ret tt
  | (indata, status) :: evs' =>
      AIController._audio_callback indata status >> fire_callbacks evs'
  end.

(** [needle in hay] on strings. *)
Definition py_in (needle hay : string) : bool :=
  bool_decide (is_Some (String.index 0 needle hay)).

(** ** Concrete environments, to run the model on *)

Module Lab.

(** Library constructors hand out fresh objects, numbered by the device
    state; [read_file] finds a file; every other call returns [None]. *)
Definition behave (c : call) (n : N) : outcome pyval * N :=
  if String.eqb (callee c) "sd.InputStream"
     || String.eqb (callee c) "websocket.WebSocketApp"
     || String.eqb (callee c) "threading.Thread"
  then (Returned (PObj n), N.succ n)
  else if String.eqb (callee c) "self.file_operations.read_file"
  then (Returned (PStr "hello"), n)
  else (Returned PNone, n).

(** Every call outside the modelled objects fails. *)
Definition failing (c : call) (n : N) : outcome pyval * N :=
  (Raised (Exn "TypeError" "boom"), n).

(** [str(v)] under the interpreter's default limit of 4300 digits. *)
Definition int_str (v : Z) : string + exn :=
  if (4300 <? String.length (pretty (Z.abs v)))%nat then
    inr (Exn "ValueError"
           ("Exceeds the limit (4300 digits) for integer string conversion; "
            ++ "use sys.set_int_max_str_digits() to increase the limit"))
  else inl (pretty v).

Definition world0 : World N := MkWorld [] [] 0%N.

(** A controller for the realtime tab, before [start_realtime]. *)
Definition controller : State AIController.object N :=
  MkState (AIController.new "sk-test" "unknown" "" "realtime"
             "You are an AI assistant with control over the user's system.")
          world0.

(** The same controller once started. *)
Definition started : State AIController.object N :=
  (AIController.start_realtime behave controller).2.

(** A system controller built on a platform the module does not know. *)
Definition freebsd : State SystemController.object N :=
  match SystemController.new behave "freebsd" world0 with
  | (Returned o, w) => MkState o w
  | (_, w) => MkState (SystemController.MkObject "" false ∅) w
  end.

(** System controllers built on the three known platforms. *)
Definition windows : State SystemController.object N :=
  match SystemController.new behave "windows" world0 with
  | (Returned o, w) => MkState o w
  | (_, w) => MkState (SystemController.MkObject "" false ∅) w
  end.

Definition linux : State SystemController.object N :=
  match SystemController.new behave "linux" world0 with
  | (Returned o, w) => MkState o w
  | (_, w) => MkState (SystemController.MkObject "" false ∅) w
  end.

End Lab.

(** A computation that leaves the attributes of its own object alone. *)
Definition preserves_self {Self D A} (m : M (State Self D) A) : Prop :=
  ∀ s, self (m s).2 = self s.

(** One step down an [if]/[elif] chain of string comparisons. *)
Ltac step_eqb :=
  match goal with
  | |- context [if String.eqb ?a ?b then _ else _] =>
      destruct (String.eqb_spec a b) as [?|?]; [subst|]; cbv iota
  end.

(** An environment in which every outside call returns. *)
Definition returns_normally {D} (behave : call → D → outcome pyval * D)
    : Prop :=
  ∀ c d, ∃ v d', behave c d = (Returned v, d').

(** A computation that keeps a property of its own object, however it
    ends. *)
Definition keeps_self {Self D A} (Q : Self → Prop) (m : M (State Self D) A)
    : Prop :=
  ∀ s, Q (self s) → Q (self (m s).2).

(** One use of a controller, by its owner or by a library thread. *)
Inductive use : Type :=
| Use_handler (h : AIController.handler) (operation : string)
    (params : gmap string pyval)
| Use_start_realtime
| Use_stop_realtime
| Use_audio_callback (indata : AIController.frame)
    (status : AIController.CallbackFlags)
| Use_send_text_message (opts : AIController.options)
    (date time message role : string)
| Use_ask_sync (opts : AIController.options) (prompt : string)
| Use_on_message (message : string)
| Use_on_error (error : pyval)
| Use_on_close.

Section Uses.
Context {D : Type}.
Variable behave : call → D → outcome pyval * D.
Variable json_dumps : pyval → string.
Variable json_loads : string → outcome pyval.
Variable py_str : pyval → string.
Variable builtin_error : string → pyval → exn.

(** The state a use leaves behind, whether it returned or raised. *)
Definition run_use (u : use) (s : State AIController.object D)
    : State AIController.object D :=
  match u with
  | Use_handler h operation params =>
      (AIController.run_handler behave h operation params s).2
  | Use_start_realtime => (AIController.start_realtime behave s).2
  | Use_stop_realtime => (AIController.stop_realtime behave s).2
  | Use_audio_callback indata status =>
      (AIController._audio_callback indata status s).2
  | Use_send_text_message opts date time message role =>
      (AIController.send_text_message behave json_dumps opts date time
         message role s).2
  | Use_ask_sync opts prompt =>
      (AIController.ask_sync json_dumps opts prompt s).2
  | Use_on_message message =>
      (AIController._on_message behave json_loads py_str builtin_error
         message s).2
  | Use_on_error error => (AIController._on_error py_str error s).2
  | Use_on_close => (AIController._on_close s).2
  end.

Definition run_uses (us : list use) (s : State AIController.object D)
    : State AIController.object D :=
  foldl (λ s u, run_use u s) s us.

End Uses.

(** The five feature names. *)
Definition feature_names : list string :=
  ["volume"; "brightness"; "power"; "window"; "process"].

(** The dictionary [_setup_platform_specific_imports] builds, with every
    feature set to [b]. *)
Definition all_features (b : bool) : gmap string bool :=
  {[ "volume" := b; "brightness" := b; "power" := b; "window" := b;
     "process" := b ]}.

(** The keys of [supported_features] are the five feature names. *)
Definition has_five_features (o : SystemController.object) : Prop :=
  dom (SystemController.supported_features o)
  = (list_to_set feature_names : gset string).

(** The attributes of an [AIController] that only [__init__] writes. *)
Definition fixed_part (o : AIController.object)
    : string * string * string * string * Z * Z
      * list AIController.message :=
  (AIController.api_key o, AIController.device o,
   AIController.initial_prompt o, AIController.mode o,
   AIController.sample_rate o, AIController.channels o,
   AIController.messages o).

(** The blocks the capture callback was handed during a series of uses. *)
Definition captured (us : list use) : list AIController.frame :=
  omap (λ u, match u with
             | Use_audio_callback indata _ => Some indata
             | _ => None
             end) us.

(** ** More environments and inputs, to run the model on *)

Module Bench.

(** [str(v/100)]: the division raises when the quotient rounds to 2^1024
    or more; below that, the text for integers of everyday size (up to 15
    digits): 150 gives "1.5", 5 gives "0.05", 0 gives "0.0". *)
Definition ratio_str (v : Z) : string + exn :=
  let a := Z.abs v in
  let r := (a mod 100)%Z in
  if (100 * (2 ^ 1024 - 2 ^ 970) <=? a)%Z then
    inr (Exn "OverflowError" "integer division result too large for a float")
  else
    inl ((if (v <? 0)%Z then "-" else "")
         ++ pretty (a / 100)%Z ++ "."
         ++ (if (r mod 10 =? 0)%Z then pretty (r / 10)%Z
             else if (r <? 10)%Z then "0" ++ pretty r
             else pretty r)).

(** [json.dumps], for values whose strings need no escaping. *)
Fixpoint dumps (v : pyval) : string :=
  match v with
  | PNone => "null"
  | PBool true => "true"
  | PBool false => "false"
  | PInt z => pretty z
  | PStr s => dq ++ s ++ dq
  | PList l => "[" ++ AIController.join ", " (map dumps l) ++ "]"
  | PDict d =>
      "{" ++ AIController.join ", "
               (map (λ kv, dq ++ fst kv ++ dq ++ ": " ++ dumps (snd kv)) d)
      ++ "}"
  | _ => "null"
  end.

(** The three messages the decoder below knows. *)
Definition text_message : string :=
  "{" ++ dq ++ "text" ++ dq ++ ": " ++ dq ++ "Hello" ++ dq ++ ", "
  ++ dq ++ "audio" ++ dq ++ ": " ++ dq ++ "AAAA" ++ dq ++ "}".

Definition error_message : string :=
  "{" ++ dq ++ "type" ++ dq ++ ": " ++ dq ++ "error" ++ dq ++ "}".

(** [json.loads] on those messages; anything else does not decode. *)
Definition loads (message : string) : outcome pyval :=
  if String.eqb message text_message then
    Returned (PDict [("text", PStr "Hello"); ("audio", PStr "AAAA")])
  else if String.eqb message error_message then
    Returned (PDict [("type", PStr "error")])
  else
    Raised (Exn "JSONDecodeError"
              "Expecting value: line 1 column 1 (char 0)").

(** [str()] of the scalars; other values are not printed in the runs
    below. *)
Definition display (v : pyval) : string :=
  match v with
  | PNone => "None"
  | PBool true => "True"
  | PBool false => "False"
  | PInt z => pretty z
  | PStr s => s
  | _ => "<object>"
  end.

Definition builtin_error (op : string) (v : pyval) : exn :=
  Exn "TypeError" ("operator " ++ op ++ " does not apply").

(** A machine without the platform packages: every import fails. *)
Definition no_module (c : call) (n : N) : outcome pyval * N :=
  if String.eqb (callee c) "import" then
    (Raised (Exn "ModuleNotFoundError" "No module named 'win32api'"), n)
  else Lab.behave c n.

(** A machine without amixer. *)
Definition no_amixer (c : call) (n : N) : outcome pyval * N :=
  match args c with
  | [PList (PStr "amixer" :: _)] =>
      (Raised (Exn "FileNotFoundError"
                 "[Errno 2] No such file or directory: 'amixer'"), n)
  | _ => Lab.behave c n
  end.

(** A machine whose input stream cannot be started. *)
Definition no_capture (e : exn) (c : call) (n : N) : outcome pyval * N :=
  if String.eqb (callee c) "self.audio_stream.start" then (Raised e, n)
  else Lab.behave c n.

(** A desktop with one window titled "Editor" and no other. *)
Definition desktop (c : call) (n : N) : outcome pyval * N :=
  if String.eqb (callee c) "pyautogui.getWindowsWithTitle" then
    match args c with
    | [PStr "Editor"] => (Returned (PList [PObj 7]), n)
    | _ => (Returned (PList []), n)
    end
  else Lab.behave c n.

(** A system controller built on macOS. *)
Definition darwin : State SystemController.object N :=
  match SystemController.new Lab.behave "darwin" Lab.world0 with
  | (Returned o, w) => MkState o w
  | (_, w) => MkState (SystemController.MkObject "" false ∅) w
  end.

Definition both : AIController.options :=
  AIController.MkOptions true true true.

(** The controller of [Lab.started] after a second [start_realtime], and
    after the [stop_realtime] that follows. *)
Definition restarted : State AIController.object N :=
  (AIController.start_realtime Lab.behave Lab.started).2.

Definition stopped : State AIController.object N :=
  (AIController.stop_realtime Lab.behave restarted).2.

End Bench.

(** * Properties *)

(** ** The monad *)

Lemma try_except_returned {S A} (body : M S A) (h : exn → M S A) s a s' :
  body s = (Returned a, s') → try_except body h s = (Returned a, s').
Proof. unfold try_except, try_except_cls. by intros ->. Qed.

Lemma try_except_raised {S A} (body : M S A) (h : exn → M S A) s e s' :
  body s = (Raised e, s') → try_except body h s = h e s'.
Proof. unfold try_except, try_except_cls. by intros ->. Qed.

Lemma try_except_blocks {S A} (body : M S A) (h : exn → M S A) s s' :
  body s = (Blocks, s') → try_except body h s = (Blocks, s').
Proof. unfold try_except, try_except_cls. by intros ->. Qed.

(** A [try]/[except Exception] whose handler returns never raises. *)
Lemma try_except_ret_not_raised {S A} (body : M S A) (f : exn → A) s :
  is_raised (try_except body (λ e, ret (f e)) s).1 = false.
Proof.
  unfold try_except, try_except_cls.
  by destruct (body s) as [[a|e|] s'].
Qed.

(** ** [SystemController.control_volume] *)

Section SystemControllerFacts.
Context {D : Type}.
Variable behave : call → D → outcome pyval * D.
Variable int_str : Z → string + exn.
Import SystemController.

#[local] Abbreviation St := (State object D).

Lemma feature_lookup (k : string) (b : bool) (s : St) :
  supported_features (self s) !! k = Some b →
  feature k s = (Returned b, s).
Proof. unfold feature. by intros ->. Qed.

(** C4.  When [supported_features['volume']] is false, [control_volume]
    returns "Volume control is not supported on this system" for every
    action and value, and the state it returns is the state it was given:
    the log of outside calls is unchanged, so the check precedes any
    attempt at a system action. *)
Theorem control_volume_unsupported (action : string) (value : option Z)
    (s : St) :
  supported_features (self s) !! "volume" = Some false →
  control_volume behave int_str action value s
  = (Returned "Volume control is not supported on this system", s).
Proof.
  intros Hf. unfold control_volume, bind.
  by rewrite (feature_lookup _ _ _ Hf).
Qed.

(** With volume supported, [control_volume] is its [try] block: the
    actions, then the success message, any exception turned into a
    message. *)
Lemma control_volume_supported (action : string) (value : option Z) (s : St) :
  supported_features (self s) !! "volume" = Some true →
  control_volume behave int_str action value s
  = match volume_actions behave int_str (system (self s)) action value s with
    | (Returned _, s') =>
        (Returned ("Volume " ++ action ++ " successful"), s')
    | (Raised e, s') =>
        (Returned ("Error controlling volume: " ++ str e), s')
    | (Blocks, s') => (Blocks, s')
    end.
Proof.
  intros Hf. unfold control_volume, bind at 1.
  rewrite (feature_lookup _ _ _ Hf). cbn [negb].
  unfold try_except, try_except_cls, bind, gets, ret. cbn.
  by destruct (volume_actions _ _ _ _ _ s) as [[[]|e|] s'].
Qed.

(** The cases in which no branch of the [if]/[elif] chain matches. *)
Lemma volume_actions_no_branch (action : string) (value : option Z) (s : St) :
  system (self s) ∉ ["windows"; "darwin"; "linux"]
  ∨ action ∉ ["mute"; "unmute"; "up"; "down"; "set"]
  ∨ (action = "set" ∧ value = None)
  ∨ (system (self s) = "windows" ∧ action = "unmute")
  ∨ (system (self s) ≠ "windows" ∧ (action = "up" ∨ action = "down")) →
  volume_actions behave int_str (system (self s)) action value s
  = (Returned tt, s).
Proof.
  unfold volume_actions. rewrite !not_elem_of_cons.
  intros H.
  repeat match goal with
         | |- context [String.eqb ?a ?b] =>
             destruct (String.eqb_spec a b) as [?|?]
         end;
    try reflexivity;
    try (destruct value; [|reflexivity]);
    exfalso; repeat (destruct_or! || destruct_and!);
    try discriminate; try congruence.
Qed.

(** C10.  With volume supported, whenever the actions of the [try] block
    complete without an exception, [control_volume] answers
    "Volume <action> successful", whatever the action string; and when no
    branch matches (an unknown platform, an unknown action, ["set"] without
    a value, ["unmute"] on Windows, ["up"] or ["down"] off Windows) it
    answers so with the state, hence the log of outside calls, unchanged. *)
Theorem control_volume_reports_success (action : string) (value : option Z)
    (s : St) :
  supported_features (self s) !! "volume" = Some true →
  (∀ s', volume_actions behave int_str (system (self s)) action value s
         = (Returned tt, s') →
         control_volume behave int_str action value s
         = (Returned ("Volume " ++ action ++ " successful"), s'))
  ∧ (system (self s) ∉ ["windows"; "darwin"; "linux"]
     ∨ action ∉ ["mute"; "unmute"; "up"; "down"; "set"]
     ∨ (action = "set" ∧ value = None)
     ∨ (system (self s) = "windows" ∧ action = "unmute")
     ∨ (system (self s) ≠ "windows" ∧ (action = "up" ∨ action = "down")) →
     control_volume behave int_str action value s
     = (Returned ("Volume " ++ action ++ " successful"), s)).
Proof.
  intros Hf. split.
  - intros s' Hrun. by rewrite (control_volume_supported _ _ _ Hf), Hrun.
  - intros Hno. rewrite (control_volume_supported _ _ _ Hf).
    by rewrite (volume_actions_no_branch _ _ _ Hno).
Qed.

End SystemControllerFacts.

(** On a platform the module does not know every feature is declared
    unsupported, and ["set"] with value 150 is refused without any call. *)
Lemma control_volume_unsupported_witness :
  SystemController.supported_features (self Lab.freebsd) !! "volume"
  = Some false
  ∧ SystemController.control_volume Lab.behave Lab.int_str "set"
      (Some 150%Z) Lab.freebsd
    = (Returned "Volume control is not supported on this system",
       Lab.freebsd).
Proof.
  split; [reflexivity|].
  apply (control_volume_unsupported Lab.behave Lab.int_str "set" (Some 150%Z)
           Lab.freebsd).
  reflexivity.
Defined.

(** On Windows ["unmute"] matches no branch, and an arbitrary word matches
    none anywhere: success is reported and nothing is called. *)
Lemma control_volume_reports_success_witness :
  SystemController.supported_features (self Lab.windows) !! "volume"
  = Some true
  ∧ SystemController.control_volume Lab.behave Lab.int_str "unmute" None
      Lab.windows
    = (Returned "Volume unmute successful", Lab.windows)
  ∧ SystemController.control_volume Lab.behave Lab.int_str "louder"
      (Some 11%Z) Lab.linux
    = (Returned "Volume louder successful", Lab.linux).
Proof.
  split; [reflexivity|]. split.
  - apply (control_volume_reports_success Lab.behave Lab.int_str "unmute"
             None Lab.windows); [reflexivity|].
    right; right; right; left. split; reflexivity.
  - apply (control_volume_reports_success Lab.behave Lab.int_str "louder"
             (Some 11%Z) Lab.linux); [reflexivity|].
    right; left. rewrite !not_elem_of_cons. repeat split; try discriminate.
    apply not_elem_of_nil.
Defined.

(** ** The registry *)

Section DictDisplay.
Context {V : Type}.
Implicit Types (kvs : list (string * V)) (m : gmap string V).

Lemma dict_display_acc_notin kvs m (k : string) :
  k ∉ kvs.*1 →
  foldl (λ m kv, <[kv.1 := kv.2]> m) m kvs !! k = m !! k.
Proof.
  revert m. induction kvs as [|[k' v'] kvs IH]; intros m Hk; [done|].
  rewrite fmap_cons, not_elem_of_cons in Hk. destruct Hk as [Hne Hk].
  cbn. rewrite IH by done. by rewrite lookup_insert_ne.
Qed.

Lemma dict_display_acc_in kvs m (k : string) (v : V) :
  NoDup kvs.*1 → (k, v) ∈ kvs →
  foldl (λ m kv, <[kv.1 := kv.2]> m) m kvs !! k = Some v.
Proof.
  revert m. induction kvs as [|[k' v'] kvs IH]; intros m Hnd Hin.
  - by apply elem_of_nil in Hin.
  - rewrite fmap_cons in Hnd. apply NoDup_cons in Hnd as [Hk' Hnd].
    apply elem_of_cons in Hin as [Heq|Hin]; cbn.
    + injection Heq as -> ->.
      rewrite dict_display_acc_notin by done. apply lookup_insert_eq.
    + by apply IH.
Qed.

(** A display without repeated keys holds exactly its pairs. *)
Lemma dict_display_lookup kvs (k : string) (v : V) :
  NoDup kvs.*1 →
  AIController.dict_display kvs !! k = Some v ↔ (k, v) ∈ kvs.
Proof.
  intros Hnd. unfold AIController.dict_display. split.
  - intros Hl. destruct (decide (k ∈ kvs.*1)) as [Hin|Hout].
    + apply list_elem_of_fmap in Hin as [[k' v'] [-> Hin]]. cbn in Hl.
      rewrite (dict_display_acc_in _ _ _ _ Hnd Hin) in Hl.
      by injection Hl as ->.
    + by rewrite dict_display_acc_notin, lookup_empty in Hl.
  - by apply dict_display_acc_in.
Qed.

Lemma dict_display_acc_is_Some kvs m (k : string) :
  k ∈ kvs.*1 →
  is_Some (foldl (λ m kv, <[kv.1 := kv.2]> m) m kvs !! k).
Proof.
  revert m. induction kvs as [|[k' v'] kvs IH]; intros m Hin.
  - by apply elem_of_nil in Hin.
  - cbn. destruct (decide (k ∈ kvs.*1)) as [Hin'|Hout]; [by apply IH|].
    rewrite dict_display_acc_notin by done.
    rewrite fmap_cons in Hin. apply elem_of_cons in Hin as [->|Hin]; [|done].
    cbn. rewrite lookup_insert_eq. by eexists.
Qed.

Lemma dict_display_lookup_None kvs (k : string) :
  AIController.dict_display kvs !! k = None ↔ k ∉ kvs.*1.
Proof.
  unfold AIController.dict_display. split.
  - intros Hl Hin. apply (dict_display_acc_is_Some _ ∅) in Hin as [v Hv].
    congruence.
  - intros Hout. by rewrite dict_display_acc_notin, lookup_empty.
Qed.

End DictDisplay.

Lemma available_functions_NoDup :
  NoDup (AIController.available_functions_items.*1).
Proof. by apply (bool_decide_unpack _); vm_compute. Qed.

(** C9.  The registry's display names 36 operations, no name twice; the
    registry holds exactly these pairs, so each registered name has exactly
    one handler; and no name is registered under two handlers' groups. *)
Theorem available_functions_unique :
  NoDup (AIController.available_functions_items.*1)
  ∧ length AIController.available_functions_items = 36
  ∧ size AIController.available_functions = 36
  ∧ (∀ name h, AIController.available_functions !! name = Some h
               ↔ (name, h) ∈ AIController.available_functions_items)
  ∧ (∀ name h1 h2, name ∈ AIController.group h1 →
                   name ∈ AIController.group h2 → h1 = h2).
Proof.
  pose proof available_functions_NoDup as Hnd.
  split; [done|]. split; [done|]. split; [by vm_compute|]. split.
  - intros name h. by apply dict_display_lookup.
  - intros name h1 h2 H1 H2. unfold AIController.group in *.
    apply list_elem_of_fmap in H1 as [[n1 g1] [-> H1]].
    apply list_elem_of_fmap in H2 as [[n2 g2] [Hn H2]].
    apply list_elem_of_filter in H1 as [Hg1 H1].
    apply list_elem_of_filter in H2 as [Hg2 H2].
    cbn in Hg1, Hg2, Hn. subst.
    apply (dict_display_lookup _ _ _ Hnd) in H1, H2. congruence.
Qed.

(** ** The dispatchers *)

Section PreservesSelf.
Context {Self D : Type}.
Variable behave : call → D → outcome pyval * D.

#[local] Abbreviation St := (State Self D).

Lemma preserves_ret {A} (a : A) : preserves_self (ret a : M St A).
Proof. done. Qed.

Lemma preserves_raise {A} (e : exn) : preserves_self (raise e : M St A).
Proof. done. Qed.

Lemma preserves_ext (c : call) : preserves_self (ext (Self:=Self) behave c).
Proof. intros s. unfold ext. by destruct (behave c _). Qed.

Lemma preserves_bind {A B} (m : M St A) (k : A → M St B) :
  preserves_self m → (∀ a, preserves_self (k a)) →
  preserves_self (bind m k).
Proof.
  intros Hm Hk s. unfold bind. specialize (Hm s).
  destruct (m s) as [[a|e|] s']; cbn in *; [|done..].
  by rewrite Hk.
Qed.

Lemma preserves_try_except {A} (m : M St A) (h : exn → M St A) :
  preserves_self m → (∀ e, preserves_self (h e)) →
  preserves_self (try_except m h).
Proof.
  intros Hm Hh s. unfold try_except, try_except_cls. specialize (Hm s).
  destruct (m s) as [[a|e|] s']; cbn in *; [done| |done].
  by rewrite Hh.
Qed.

End PreservesSelf.

Section Dispatchers.
Context {D : Type}.
Variable behave : call → D → outcome pyval * D.
Import AIController.

#[local] Abbreviation St := (State object D).

Lemma preserves_invoke c name args kw :
  preserves_self (invoke behave c name args kw).
Proof.
  unfold invoke. destruct (has_method c name);
    [apply preserves_ext | apply preserves_raise].
Qed.

Lemma preserves_system_control_body action params :
  preserves_self (system_control_body behave action params).
Proof.
  unfold system_control_body.
  repeat step_eqb; apply preserves_invoke || apply preserves_ret.
Qed.

Lemma preserves_file_operation_body op params :
  preserves_self (file_operation_body behave op params).
Proof.
  unfold file_operation_body.
  repeat step_eqb; apply preserves_invoke || apply preserves_ret.
Qed.

Lemma preserves_terminal_operation_body op params :
  preserves_self (terminal_operation_body behave op params).
Proof.
  unfold terminal_operation_body.
  repeat step_eqb; apply preserves_invoke || apply preserves_ret.
Qed.

Lemma preserves_web_operation_body op params :
  preserves_self (web_operation_body behave op params).
Proof.
  unfold web_operation_body.
  repeat step_eqb; apply preserves_invoke || apply preserves_ret.
Qed.

Lemma preserves_media_operation_body op params :
  preserves_self (media_operation_body behave op params).
Proof.
  unfold media_operation_body.
  repeat step_eqb; apply preserves_invoke || apply preserves_ret.
Qed.

(** No handler writes an attribute of the controller. *)
Lemma preserves_run_handler h op params :
  preserves_self (run_handler behave h op params).
Proof.
  destruct h; cbn;
    (apply preserves_try_except; [|intros; apply preserves_ret]).
  - apply preserves_system_control_body.
  - apply preserves_file_operation_body.
  - apply preserves_terminal_operation_body.
  - apply preserves_web_operation_body.
  - apply preserves_media_operation_body.
Qed.

(** No handler raises: each one is a [try]/[except Exception] whose handler
    returns a message. *)
Lemma run_handler_not_raised h op params (s : St) :
  is_raised (run_handler behave h op params s).1 = false.
Proof. destruct h; apply try_except_ret_not_raised. Qed.

(** C1 (as amended).  Each dispatcher turns an exception raised inside its
    [try] block into a returned message: "Error in <group> operation:
    <detail>" for the file, terminal, web and media dispatchers, and
    "Error executing <action>: <detail>" for [handle_system_control]; and
    no dispatcher raises, whatever the operation name and the arguments. *)
Theorem dispatch_catches_exceptions (operation : string)
    (params : gmap string pyval) (s : St) :
  (∀ e s', file_operation_body behave operation params s = (Raised e, s') →
     handle_file_operation behave operation params s
     = (Returned (PStr ("Error in file operation: " ++ str e)), s'))
  ∧ (∀ e s',
       terminal_operation_body behave operation params s = (Raised e, s') →
       handle_terminal_operation behave operation params s
       = (Returned (PStr ("Error in terminal operation: " ++ str e)), s'))
  ∧ (∀ e s', web_operation_body behave operation params s = (Raised e, s') →
       handle_web_operation behave operation params s
       = (Returned (PStr ("Error in web operation: " ++ str e)), s'))
  ∧ (∀ e s', media_operation_body behave operation params s = (Raised e, s') →
       handle_media_operation behave operation params s
       = (Returned (PStr ("Error in media operation: " ++ str e)), s'))
  ∧ (∀ e s', system_control_body behave operation params s = (Raised e, s') →
       handle_system_control behave operation params s
       = (Returned (PStr ("Error executing " ++ operation ++ ": " ++ str e)),
          s'))
  ∧ (∀ h, is_raised (run_handler behave h operation params s).1 = false).
Proof.
  repeat apply conj;
    try (intros e s' Hbody;
         unfold handle_file_operation, handle_terminal_operation,
           handle_web_operation, handle_media_operation,
           handle_system_control;
         by rewrite (try_except_raised _ _ _ _ _ Hbody)).
  intros h. apply run_handler_not_raised.
Qed.

(** C3 (as amended).  A dispatch leaves every attribute of the controller
    as it was; in particular [self.messages] is the same list afterwards:
    nothing is appended, whatever the handler did. *)
Theorem dispatch_leaves_messages (h : handler) (operation : string)
    (params : gmap string pyval) (s : St) :
  self (run_handler behave h operation params s).2 = self s
  ∧ messages (self (run_handler behave h operation params s).2)
    = messages (self s).
Proof.
  pose proof (preserves_run_handler h operation params s) as H.
  by rewrite H.
Qed.

End Dispatchers.

Section RegisteredNames.
Context {D : Type}.
Variable behave : call → D → outcome pyval * D.
Import AIController.

#[local] Abbreviation St := (State object D).

(** A name outside the registry differs from each of its 36 keys. *)
Lemma unregistered_not_a_key (name : string) :
  available_functions !! name = None →
  name ∉ available_functions_items.*1.
Proof. apply dict_display_lookup_None. Qed.

(** C2 (as amended).  For a name outside the registry the file, terminal,
    web and media dispatchers answer "Invalid <group> operation", and
    [handle_system_control] answers "Unknown action: <name>" unless the
    name is one of its five actions; each returns the state it was given,
    and whatever the name [self.messages] is left as it was. *)
Theorem unregistered_operation_results (name : string)
    (params : gmap string pyval) (s : St) :
  available_functions !! name = None →
  (name ∉ ["volume"; "brightness"; "power"; "window"; "process"] →
   handle_system_control behave name params s
   = (Returned (PStr ("Unknown action: " ++ name)), s))
  ∧ handle_file_operation behave name params s
    = (Returned (PStr "Invalid file operation"), s)
  ∧ handle_terminal_operation behave name params s
    = (Returned (PStr "Invalid terminal operation"), s)
  ∧ handle_web_operation behave name params s
    = (Returned (PStr "Invalid web operation"), s)
  ∧ handle_media_operation behave name params s
    = (Returned (PStr "Invalid media operation"), s)
  ∧ (∀ h, messages (self (run_handler behave h name params s).2)
          = messages (self s)).
Proof.
  intros Hnone. apply unregistered_not_a_key in Hnone.
  cbn in Hnone. rewrite !not_elem_of_cons in Hnone. destruct_and!.
  repeat apply conj.
  - rewrite !not_elem_of_cons. intros Hact. destruct_and!.
    unfold handle_system_control, system_control_body.
    by repeat step_eqb.
  - unfold handle_file_operation, file_operation_body. by repeat step_eqb.
  - unfold handle_terminal_operation, terminal_operation_body.
    by repeat step_eqb.
  - unfold handle_web_operation, web_operation_body. by repeat step_eqb.
  - unfold handle_media_operation, media_operation_body. by repeat step_eqb.
  - intros h. by rewrite (preserves_run_handler behave h name params s).
Qed.

(** [params.get] does not tell a missing key from a key bound to
    [None]. *)
Lemma get_insert_None (params : gmap string pyval) (k k' : string) :
  params !! k = None → get (<[k := PNone]> params) k' = get params k'.
Proof.
  intros Hk. unfold get. destruct (decide (k = k')) as [->|Hne].
  - by rewrite lookup_insert_eq, Hk.
  - by rewrite lookup_insert_ne.
Qed.

(** The four dispatchers that read their arguments with [params.get]. *)
Lemma run_handler_insert_None h op (params : gmap string pyval) (k : string) :
  h ≠ Handle_system_control → params !! k = None →
  run_handler behave h op (<[k := PNone]> params)
  = run_handler behave h op params.
Proof.
  intros Hh Hk. destruct h; [done|..]; cbn;
    unfold handle_file_operation, file_operation_body,
      handle_terminal_operation, terminal_operation_body,
      handle_web_operation, web_operation_body,
      handle_media_operation, media_operation_body;
    by rewrite ?(get_insert_None _ _ _ Hk).
Qed.

(** A method the class defines is called, and the call is logged. *)
Lemma invoke_log c name args kw (s : St) :
  has_method c name = true →
  log (world (invoke behave c name args kw s).2)
  = (log (world s) ++ [method_call c name args kw])%list.
Proof.
  intros Hm. unfold invoke, ext. rewrite Hm.
  by destruct (behave _ _).
Qed.

Lemma try_except_ret_log {A} (body : M St A) (f : exn → A) (s : St) :
  log (world (try_except body (λ e, ret (f e)) s).2) = log (world (body s).2).
Proof.
  unfold try_except, try_except_cls. by destruct (body s) as [[a|e|] s'].
Qed.

(** A registered operation of these four dispatchers is one call of the
    method of its name, on the values [params.get] finds under the keys of
    its branch, inside the dispatcher's [try]. *)
Lemma run_handler_routes (name : string) (h : handler)
    (params : gmap string pyval) :
  available_functions !! name = Some h →
  h ≠ Handle_system_control →
  ∃ f, run_handler behave h name params
       = try_except
           (invoke behave (collaborator_of h) name
              (get params <$> parameter_keys name) ∅)
           (λ e, ret (f e)).
Proof.
  intros Hreg Hh.
  apply (dict_display_lookup _ _ _ available_functions_NoDup) in Hreg.
  unfold available_functions_items in Hreg.
  repeat (apply elem_of_cons in Hreg as [Hreg|Hreg];
          [injection Hreg as -> ->; try done; eexists; reflexivity|]).
  by apply elem_of_nil in Hreg.
Qed.

(** C5 (as amended).  For an operation registered under the file,
    terminal, web or media dispatcher and any arguments: the positional
    arguments are [params.get(k)] for the keys [k] of the operation's
    branch, in order, so the position of a missing key receives [None] (and
    adding the key with value [None] changes nothing) and the position of a
    key that is present receives its value; when the collaborator's class
    defines the method, exactly that one call is issued, and its result is
    the dispatcher's when it returns; and the dispatcher does not raise. *)
Theorem missing_parameter_is_None (name : string) (h : handler)
    (params : gmap string pyval) (s : St) :
  available_functions !! name = Some h →
  h ≠ Handle_system_control →
  let args := get params <$> parameter_keys name in
  let routed := method_call (collaborator_of h) name args ∅ in
  (∀ i k, parameter_keys name !! i = Some k →
          (params !! k = None → args !! i = Some PNone)
          ∧ (∀ v, params !! k = Some v → args !! i = Some v))
  ∧ (∀ k, params !! k = None →
          run_handler behave h name (<[k := PNone]> params) s
          = run_handler behave h name params s)
  ∧ (has_method (collaborator_of h) name = true →
     log (world (run_handler behave h name params s).2)
     = (log (world s) ++ [routed])%list
     ∧ ∀ v d', behave routed (dev (world s)) = (Returned v, d') →
               run_handler behave h name params s
               = (Returned v,
                  MkState (self s)
                    (MkWorld (log (world s) ++ [routed])
                             (stdout (world s)) d')))
  ∧ is_raised (run_handler behave h name params s).1 = false.
Proof.
  intros Hreg Hh args routed. repeat apply conj.
  - intros i k Hi. subst args. rewrite list_lookup_fmap, Hi. cbn.
    unfold get. split; [by intros ->|]. by intros v ->.
  - intros k Hk. by rewrite run_handler_insert_None.
  - intros Hm. destruct (run_handler_routes name h params Hreg Hh) as [f ->].
    split.
    + rewrite (try_except_ret_log _ f). by rewrite invoke_log.
    + intros v d' Hb.
      unfold try_except, try_except_cls, invoke, ext. rewrite Hm.
      fold args. fold routed. by rewrite Hb.
  - apply run_handler_not_raised.
Qed.

End RegisteredNames.

(** ** The realtime session *)

Lemma Lab_behave_returns : returns_normally Lab.behave.
Proof.
  intros c d. unfold Lab.behave. repeat case_match; by do 2 eexists.
Qed.

Section Realtime.
Context {D : Type}.
Variable behave : call → D → outcome pyval * D.
Import AIController.

#[local] Abbreviation St := (State object D).

Lemma put_unbounded (q : Queue) (x : frame) :
  maxsize q = 0%Z → put q x = Some (MkQueue 0 (items q ++ [x])).
Proof. unfold put. by intros ->. Qed.

(** On an unbounded queue the callback stores the block and returns. *)
Lemma audio_callback_unbounded (indata : frame) (status : CallbackFlags)
    (s : St) :
  maxsize (audio_queue (self s)) = 0%Z →
  ∃ s', _audio_callback indata status s = (Returned tt, s')
        ∧ audio_queue (self s')
          = MkQueue 0 (items (audio_queue (self s)) ++ [indata]).
Proof.
  destruct s as [o w]. cbn. intros Hmax.
  unfold _audio_callback, bind, when, gets, print, ret, modify, set_self.
  destruct (flags_set status); cbn -[put];
    rewrite (put_unbounded _ _ Hmax); by eexists.
Qed.

Lemma fire_callbacks_unbounded (evs : list (frame * CallbackFlags)) (s : St) :
  maxsize (audio_queue (self s)) = 0%Z →
  ∃ s', fire_callbacks evs s = (Returned tt, s')
        ∧ audio_queue (self s')
          = MkQueue 0 (items (audio_queue (self s)) ++ evs.*1).
Proof.
  revert s. induction evs as [|[indata status] evs IH]; intros s Hmax.
  - exists s. split; [done|]. rewrite app_nil_r.
    by destruct (audio_queue (self s)); cbn in *; subst.
  - destruct (audio_callback_unbounded indata status s Hmax)
      as (s1 & Hrun1 & Hq1).
    destruct (IH s1) as (s2 & Hrun2 & Hq2); [by rewrite Hq1|].
    exists s2. split.
    + cbn. unfold bind. by rewrite Hrun1.
    + rewrite Hq2, Hq1. cbn. by rewrite <- app_assoc.
Qed.

(** C8 (as amended).  The queue [Queue()] creates has no capacity: from a
    state holding such a queue, any series of callbacks returns (none
    waits), and afterwards the queue holds every block it held before
    followed by every captured block, in order; none is dropped, so its
    size has grown by the number of callbacks. *)
Theorem audio_queue_unbounded (evs : list (frame * CallbackFlags)) (s : St) :
  maxsize (audio_queue (self s)) = 0%Z →
  ∃ s', fire_callbacks evs s = (Returned tt, s')
        ∧ items (audio_queue (self s'))
          = (items (audio_queue (self s)) ++ evs.*1)%list
        ∧ qsize (audio_queue (self s'))
          = qsize (audio_queue (self s)) + length evs.
Proof.
  intros Hmax.
  destruct (fire_callbacks_unbounded evs s Hmax) as (s' & Hrun & Hq).
  exists s'. split; [done|]. rewrite Hq. unfold qsize. cbn.
  split; [done|]. by rewrite length_app, length_fmap.
Qed.

(** Run the outside calls of the goal in an environment where they all
    return. *)
Ltac run_ext Hret :=
  repeat match goal with
         | |- context [behave ?c ?d] =>
             let v := fresh "v" in
             let d' := fresh "d" in
             destruct (Hret c d) as (v & d' & ->); cbn
         end.

(** C6 (as amended).  [start_realtime] has no "already active" check.  In
    a mode other than "realtime" it does nothing.  In realtime mode, when
    the six outside calls it makes return, it returns [None] having
    created a new input stream, socket and thread; what the three
    constructors returned is what it stores, in place of whatever the
    attributes held, and what it starts; and it sets [is_recording].  What
    it calls and how it ends is the same whether [is_recording] was set or
    not. *)
Theorem start_realtime_unguarded (s : St) :
  (mode (self s) ≠ "realtime" → start_realtime behave s = (Returned tt, s))
  ∧ (∀ (stream sock thread v4 v5 v6 : pyval) (d1 d2 d3 d4 d5 d6 : D),
       let create :=
         Call "sd.InputStream" []
           {[ "samplerate" := PInt (sample_rate (self s));
              "channels" := PInt (channels (self s));
              "dtype" := PRef "np.int16";
              "callback" := PRef "self._audio_callback" ]} in
       let connect :=
         Call "websocket.WebSocketApp"
           [PStr "wss://api.openai.com/v1/audio/speech"]
           {[ "header" :=
                PDict [("Authorization",
                        PStr ("Bearer " ++ api_key (self s)))];
              "on_message" := PRef "self._on_message";
              "on_error" := PRef "self._on_error";
              "on_close" := PRef "self._on_close" ]} in
       let spawn :=
         Call "threading.Thread" []
           {[ "target" := PMethod sock "run_forever" ]} in
       let daemon := Call "setattr" [thread; PStr "daemon"; PBool true] ∅ in
       let launch := Call "self.ws_thread.start" [thread] ∅ in
       let record := Call "self.audio_stream.start" [stream] ∅ in
       mode (self s) = "realtime" →
       behave create (dev (world s)) = (Returned stream, d1) →
       behave connect d1 = (Returned sock, d2) →
       behave spawn d2 = (Returned thread, d3) →
       behave daemon d3 = (Returned v4, d4) →
       behave launch d4 = (Returned v5, d5) →
       behave record d5 = (Returned v6, d6) →
       start_realtime behave s
       = (Returned tt,
          MkState (set_is_recording true
                     (set_ws_thread thread
                        (set_ws sock (set_audio_stream stream (self s)))))
                  (MkWorld
                     (log (world s)
                      ++ [create; connect; spawn; daemon; launch; record])
                     (stdout (world s)) d6)))
  ∧ (∀ b, (start_realtime behave (set_self (set_is_recording b) s)).1
          = (start_realtime behave s).1
          ∧ world (start_realtime behave (set_self (set_is_recording b) s)).2
            = world (start_realtime behave s).2).
Proof.
  repeat apply conj.
  - destruct s as [o w]. cbn [self world].
    intros Hmode. unfold start_realtime, bind, gets. cbn.
    by destruct (String.eqb_spec (mode o) "realtime").
  - intros stream sock thread v4 v5 v6 d1 d2 d3 d4 d5 d6
      create connect spawn daemon launch record Hmode H1 H2 H3 H4 H5 H6.
    subst create connect spawn daemon launch record.
    destruct s as [o w]. cbn in *.
    unfold start_realtime, ext_, bind, gets, ext, modify, set_self, ret.
    cbn. rewrite Hmode. cbn.
    rewrite H1. cbn. rewrite H2. cbn. rewrite H3. cbn. rewrite H4. cbn.
    rewrite H5. cbn. rewrite H6. cbn.
    by rewrite <- !app_assoc.
  - intros b. destruct s as [o w].
    unfold start_realtime, ext_, bind, gets, ext, modify, set_self, ret.
    destruct o; cbn.
    destruct (String.eqb _ "realtime"); cbn; [|done].
    repeat (match goal with
            | |- context [behave ?c ?d] =>
                destruct (behave c d) as [[?|?|] ?]; cbn
            end; try done).
Qed.

(** When the outside calls return, [stop_realtime] returns having called,
    in order, [stop] and [close] on the stream, [close] on the socket and
    [join] on the thread the controller holds. *)
Lemma stop_realtime_calls (o : object) (w : World D) :
  returns_normally behave →
  ∃ w',
    stop_realtime behave (MkState o w)
    = (Returned tt, MkState (set_is_recording false o) w')
    ∧ log w'
      = (log w
         ++ match audio_stream o with
            | Some a => [Call "self.audio_stream.stop" [a] ∅;
                         Call "self.audio_stream.close" [a] ∅]
            | None => []
            end
         ++ (if truthy (ws o) then [Call "self.ws.close" [ws o] ∅] else [])
         ++ (if truthy (ws_thread o)
             then [Call "self.ws_thread.join" [ws_thread o] ∅] else []))%list.
Proof.
  intros Hret.
  unfold stop_realtime, when, ext_, bind, gets, modify, set_self, ext, ret.
  destruct o as [? ? ? ? ? ? ? ? sock thread stream ?]; cbn.
  destruct stream as [a|]; cbn;
    repeat (match goal with
            | |- context [behave ?c ?d] =>
                let v := fresh "v" in
                let d' := fresh "d" in
                destruct (Hret c d) as (v & d' & ->); cbn
            | |- context [truthy ?x] => destruct (truthy x); cbn
            end);
    eexists; (split; [reflexivity|]); cbn;
    by rewrite <- ?app_assoc, ?app_nil_r.
Qed.



End Realtime.

(** ** The model at concrete inputs *)

(** Four of the six registered media operations name a method that
    [MediaOperations] does not define; the lookup fails inside the [try]
    and nothing is called. *)
Example handle_media_operation_edit_image :
  AIController.handle_media_operation Lab.behave "edit_image"
    {[ "path" := PStr "cat.png" ]} Lab.controller
  = (Returned
       (PStr ("Error in media operation: "
              ++ "'MediaOperations' object has no attribute 'edit_image'")),
     Lab.controller).
Proof. reflexivity. Qed.

Example missing_media_methods :
  filter (λ name, ¬ AIController.has_method AIController.media_operations name)
         (AIController.group AIController.Handle_media_operation)
  = ["edit_image"; "analyze_image"; "transcribe_audio"; "edit_audio"].
Proof. by vm_compute. Qed.

(** When a collaborator call fails, the file dispatcher reports it under
    its own heading. *)
Lemma dispatch_catches_exceptions_witness :
  AIController.file_operation_body Lab.failing "read_file" ∅ Lab.controller
  = (Raised (Exn "TypeError" "boom"),
     (AIController.file_operation_body Lab.failing "read_file" ∅
        Lab.controller).2)
  ∧ AIController.handle_file_operation Lab.failing "read_file" ∅
      Lab.controller
    = (Returned (PStr "Error in file operation: boom"),
       (AIController.file_operation_body Lab.failing "read_file" ∅
          Lab.controller).2).
Proof.
  split; [reflexivity|].
  apply (proj1 (dispatch_catches_exceptions Lab.failing "read_file" ∅
                  Lab.controller) (Exn "TypeError" "boom")).
  reflexivity.
Defined.

(** C1, as stated, fails: when the call behind [handle_system_control]
    raises, the message is "Error executing volume: boom", which is not of
    the form "Error in <group> operation: <detail>". *)
Lemma handle_system_control_error_format :
  (AIController.system_control_body Lab.failing "volume" ∅ Lab.controller).1
  = Raised (Exn "TypeError" "boom")
  ∧ (AIController.handle_system_control Lab.failing "volume" ∅
       Lab.controller).1
    = Returned (PStr "Error executing volume: boom")
  ∧ String.prefix "Error in " "Error executing volume: boom" = false
  ∧ (AIController.handle_system_control Lab.failing "volume" ∅
       Lab.controller).1
    ≠ Returned (PStr "Error in system operation: boom").
Proof. by vm_compute. Qed.

Lemma unregistered_operation_results_witness :
  AIController.available_functions !! "frobnicate" = None
  ∧ AIController.handle_file_operation Lab.behave "frobnicate" ∅
      Lab.controller
    = (Returned (PStr "Invalid file operation"), Lab.controller).
Proof.
  split; [by vm_compute|].
  apply (unregistered_operation_results Lab.behave "frobnicate" ∅
           Lab.controller).
  by vm_compute.
Defined.

(** C2, as stated, fails: "frobnicate" is not registered, and the file
    dispatcher's answer does not mention "Unknown action"; "volume" is not
    registered either, and [handle_system_control] calls [control_volume]
    for it. *)
Lemma unregistered_name_not_unknown_action :
  AIController.available_functions !! "frobnicate" = None
  ∧ (AIController.handle_file_operation Lab.behave "frobnicate" ∅
       Lab.controller).1
    = Returned (PStr "Invalid file operation")
  ∧ py_in "Unknown action: frobnicate" "Invalid file operation" = false
  ∧ AIController.available_functions !! "volume" = None
  ∧ (AIController.handle_system_control Lab.behave "volume"
       {[ "action" := PStr "up" ]} Lab.controller).1
    = Returned PNone
  ∧ callee <$> log (world (AIController.handle_system_control Lab.behave
                             "volume" {[ "action" := PStr "up" ]}
                             Lab.controller).2)
    = ["self.system_controller.control_volume"].
Proof. by vm_compute. Qed.

(** C3, as stated, fails: a successful [read_file] dispatch returns the
    file's text and [self.messages] is the list it was, with no entry of
    role "tool". *)
Lemma dispatch_appends_no_tool_entry :
  (AIController.handle_file_operation Lab.behave "read_file"
     {[ "path" := PStr "notes.txt" ]} Lab.controller).1
  = Returned (PStr "hello")
  ∧ AIController.messages
      (self (AIController.handle_file_operation Lab.behave "read_file"
               {[ "path" := PStr "notes.txt" ]} Lab.controller).2)
    = AIController.messages (self Lab.controller)
  ∧ length (AIController.messages
              (self (AIController.handle_file_operation Lab.behave "read_file"
                       {[ "path" := PStr "notes.txt" ]} Lab.controller).2))
    ≠ S (length (AIController.messages (self Lab.controller)))
  ∧ AIController.role <$>
      AIController.messages
        (self (AIController.handle_file_operation Lab.behave "read_file"
                 {[ "path" := PStr "notes.txt" ]} Lab.controller).2)
    = ["system"].
Proof. by vm_compute. Qed.

(** [download_file] with a path and no URL: the URL's position receives
    [None], the path's its value, and the call is made. *)
Lemma missing_parameter_is_None_witness :
  AIController.available_functions !! "download_file"
  = Some AIController.Handle_web_operation
  ∧ ({[ "path" := PStr "a.bin" ]} : gmap string pyval) !! "url" = None
  ∧ log (world (AIController.run_handler Lab.behave
                  AIController.Handle_web_operation "download_file"
                  {[ "path" := PStr "a.bin" ]} Lab.controller).2)
    = [Call "self.web_operations.download_file" [PNone; PStr "a.bin"] ∅]
  ∧ AIController.run_handler Lab.behave AIController.Handle_web_operation
      "download_file" (<["url" := PNone]> {[ "path" := PStr "a.bin" ]})
      Lab.controller
    = AIController.run_handler Lab.behave AIController.Handle_web_operation
        "download_file" {[ "path" := PStr "a.bin" ]} Lab.controller.
Proof.
  assert (AIController.available_functions !! "download_file"
          = Some AIController.Handle_web_operation) as Hreg by by vm_compute.
  assert (({[ "path" := PStr "a.bin" ]} : gmap string pyval) !! "url" = None)
    as Hurl by by vm_compute.
  destruct (missing_parameter_is_None Lab.behave "download_file"
              AIController.Handle_web_operation {[ "path" := PStr "a.bin" ]}
              Lab.controller Hreg)
    as (_ & Hsame & Hcall & _); [done|].
  split; [exact Hreg|]. split; [exact Hurl|]. split.
  - rewrite (proj1 (Hcall eq_refl)). by vm_compute.
  - by apply Hsame.
Defined.

(** C5, as stated, fails: "control_volume" is registered under
    [handle_system_control], which answers "Unknown action:
    control_volume" and calls nothing; and for its own action "volume" it
    unpacks the arguments as keywords, so a missing "action" is not passed
    as [None]. *)
Lemma registered_system_operation_not_routed :
  AIController.available_functions !! "control_volume"
  = Some AIController.Handle_system_control
  ∧ AIController.run_handler Lab.behave AIController.Handle_system_control
      "control_volume" ∅ Lab.controller
    = (Returned (PStr "Unknown action: control_volume"), Lab.controller)
  ∧ log (world (AIController.handle_system_control Lab.behave "volume" ∅
                  Lab.controller).2)
    = [Call "self.system_controller.control_volume" [] ∅]
  ∧ log (world (AIController.handle_system_control Lab.behave "volume" ∅
                  Lab.controller).2)
    ≠ log (world (AIController.handle_system_control Lab.behave "volume"
                    {[ "action" := PNone ]} Lab.controller).2).
Proof. by vm_compute. Qed.

(** A second start on a controller that is recording: the constructors
    hand out objects 3, 4 and 5, and those are what is stored and
    started. *)
Lemma start_realtime_unguarded_witness :
  AIController.mode (self Lab.started) = "realtime"
  ∧ AIController.is_recording (self Lab.started) = true
  ∧ ∃ w',
      AIController.start_realtime Lab.behave Lab.started
      = (Returned tt,
         MkState (AIController.set_is_recording true
                    (AIController.set_ws_thread (PObj 5)
                       (AIController.set_ws (PObj 4)
                          (AIController.set_audio_stream (PObj 3)
                             (self Lab.started)))))
                 w')
      ∧ drop 3 (drop 6 (log w'))
        = [Call "setattr" [PObj 5; PStr "daemon"; PBool true] ∅;
           Call "self.ws_thread.start" [PObj 5] ∅;
           Call "self.audio_stream.start" [PObj 3] ∅].
Proof.
  split; [reflexivity|]. split; [reflexivity|].
  eexists. split.
  - apply (proj1 (proj2 (start_realtime_unguarded Lab.behave Lab.started))
             (PObj 3) (PObj 4) (PObj 5) PNone PNone PNone
             4%N 5%N 6%N 6%N 6%N 6%N); reflexivity.
  - reflexivity.
Defined.

(** C6, as stated, fails: on a controller that is already recording a
    second [start_realtime] returns [None] like the first, and the
    controller now holds a new stream, socket and thread (objects 3, 4, 5)
    in place of the first session's (objects 0, 1, 2). *)
Lemma second_start_not_refused :
  AIController.is_recording (self Lab.started) = true
  ∧ (AIController.start_realtime Lab.behave Lab.started).1 = Returned tt
  ∧ AIController.audio_stream (self Lab.started) = Some (PObj 0)
  ∧ AIController.ws (self Lab.started) = PObj 1
  ∧ AIController.ws_thread (self Lab.started) = PObj 2
  ∧ AIController.audio_stream
      (self (AIController.start_realtime Lab.behave Lab.started).2)
    = Some (PObj 3)
  ∧ AIController.ws
      (self (AIController.start_realtime Lab.behave Lab.started).2)
    = PObj 4
  ∧ AIController.ws_thread
      (self (AIController.start_realtime Lab.behave Lab.started).2)
    = PObj 5
  ∧ self (AIController.start_realtime Lab.behave Lab.started).2
    ≠ self Lab.started.
Proof. by vm_compute. Qed.



Lemma audio_queue_unbounded_witness :
  AIController.maxsize (AIController.audio_queue (self Lab.controller)) = 0%Z
  ∧ ∃ s',
      fire_callbacks
        [([1%Z; 2%Z], AIController.MkFlags false "");
         ([3%Z; 4%Z], AIController.MkFlags true "input overflow")]
        Lab.controller
      = (Returned tt, s')
      ∧ AIController.items (AIController.audio_queue (self s'))
        = (AIController.items (AIController.audio_queue (self Lab.controller))
           ++ [[1%Z; 2%Z]; [3%Z; 4%Z]])%list
      ∧ AIController.qsize (AIController.audio_queue (self s'))
        = AIController.qsize (AIController.audio_queue (self Lab.controller))
          + 2.
Proof.
  split; [reflexivity|].
  apply (audio_queue_unbounded
           [([1%Z; 2%Z], AIController.MkFlags false "");
            ([3%Z; 4%Z], AIController.MkFlags true "input overflow")]
           Lab.controller).
  reflexivity.
Defined.

(** C8, as stated, fails: no capacity bounds the queue of a new
    controller; after [cap + 1] callbacks it holds [cap + 1] blocks. *)
Lemma audio_queue_exceeds_any_capacity :
  ¬ ∃ cap : nat,
      ∀ evs : list (AIController.frame * AIController.CallbackFlags),
        (AIController.qsize
           (AIController.audio_queue
              (self (fire_callbacks evs Lab.controller).2))
         ≤ cap)%nat.
Proof.
  intros [cap Hcap].
  specialize (Hcap (replicate (S cap) ([], AIController.MkFlags false ""))).
  destruct (fire_callbacks_unbounded
              (replicate (S cap) ([], AIController.MkFlags false ""))
              Lab.controller eq_refl) as (s' & Hrun & Hq).
  rewrite Hrun in Hcap. cbn [snd] in Hcap. rewrite Hq in Hcap.
  unfold AIController.qsize in Hcap. cbn [AIController.items] in Hcap.
  rewrite length_app, length_fmap, length_replicate in Hcap. lia.
Qed.

(** * Further properties *)

(** ** Properties of an object that a method keeps *)

Section KeepsSelf.
Context {Self D : Type}.
Variable behave : call → D → outcome pyval * D.
Variable Q : Self → Prop.

#[local] Abbreviation St := (State Self D).

Lemma keeps_ret {A} (a : A) : keeps_self Q (ret a : M St A).
Proof. by intros s. Qed.

Lemma keeps_raise {A} (e : exn) : keeps_self Q (raise e : M St A).
Proof. by intros s. Qed.

Lemma keeps_gets {A} (f : St → A) : keeps_self Q (gets f).
Proof. by intros s. Qed.

Lemma keeps_ext (c : call) : keeps_self Q (ext (Self:=Self) behave c).
Proof. intros s HQ. unfold ext. by destruct (behave c _). Qed.

Lemma keeps_print (line : string) :
  keeps_self Q (print (Self:=Self) (D:=D) line).
Proof. by intros s. Qed.

Lemma keeps_modify (f : Self → Self) :
  (∀ o, Q o → Q (f o)) → keeps_self Q (modify (set_self (D:=D) f)).
Proof. intros Hf s HQ. by apply Hf. Qed.

Lemma keeps_bind {A B} (m : M St A) (k : A → M St B) :
  keeps_self Q m → (∀ a, keeps_self Q (k a)) → keeps_self Q (bind m k).
Proof.
  intros Hm Hk s HQ. unfold bind. specialize (Hm s HQ).
  destruct (m s) as [[a|e|] s']; cbn in *; [|done..].
  by apply Hk.
Qed.

Lemma keeps_ext_ (c : call) : keeps_self Q (ext_ (Self:=Self) behave c).
Proof.
  unfold ext_. apply keeps_bind; [apply keeps_ext|intros; apply keeps_ret].
Qed.

Lemma keeps_try_except_cls {A} cls (m : M St A) (h : exn → M St A) :
  keeps_self Q m → (∀ e, keeps_self Q (h e)) →
  keeps_self Q (try_except_cls cls m h).
Proof.
  intros Hm Hh s HQ. unfold try_except_cls. specialize (Hm s HQ).
  destruct (m s) as [[a|e|] s']; cbn in *; [done| |done].
  destruct (isinstance e cls); [by apply Hh|done].
Qed.

Lemma keeps_try_except {A} (m : M St A) (h : exn → M St A) :
  keeps_self Q m → (∀ e, keeps_self Q (h e)) →
  keeps_self Q (try_except m h).
Proof. apply keeps_try_except_cls. Qed.

Lemma keeps_when (c : bool) (m : M St unit) :
  keeps_self Q m → keeps_self Q (when c m).
Proof. destruct c; [done|intros _; apply keeps_ret]. Qed.

End KeepsSelf.

(** Break a method into its steps, keeping a property of the object. *)
Ltac keeps_steps :=
  repeat first
    [ apply keeps_ret | apply keeps_raise | apply keeps_gets
    | apply keeps_ext | apply keeps_ext_ | apply keeps_print
    | apply keeps_when
    | apply keeps_bind; [|intros ?]
    | apply keeps_try_except_cls; [|intros ?]
    | step_eqb
    | match goal with
      | |- keeps_self _ (match ?x with _ => _ end) => destruct x
      end ].

(** ** Construction of a [SystemController] *)

Section Construction.
Context {D : Type}.
Variable behave : call → D → outcome pyval * D.
Import SystemController.

#[local] Abbreviation St := (State object D).

Lemma all_features_false :
  (λ _ : bool, false) <$> all_features true = all_features false.
Proof. reflexivity. Qed.

Lemma all_features_five b sys ok :
  has_five_features (MkObject sys ok (all_features b)).
Proof.
  unfold has_five_features, all_features. cbn.
  rewrite !dom_insert_L, dom_singleton_L. set_solver.
Qed.

Lemma keeps_five_insert (k : string) (b : bool) :
  k ∈ feature_names →
  ∀ o, has_five_features o →
       has_five_features
         (set_supported_features (<[k := b]> (supported_features o)) o).
Proof.
  intros Hk o Ho. unfold has_five_features in *. cbn.
  rewrite dom_insert_L, Ho. apply subseteq_union_1_L.
  apply (elem_of_list_to_set (C:=gset string)) in Hk.
  by apply singleton_subseteq_l.
Qed.

Lemma keeps_five_fmap (f : bool → bool) o :
  has_five_features o →
  has_five_features (set_supported_features (f <$> supported_features o) o).
Proof. unfold has_five_features. cbn. by rewrite dom_fmap_L. Qed.

Lemma validate_keeps_five :
  keeps_self has_five_features (_validate_platform_support behave).
Proof.
  unfold _validate_platform_support, subprocess_run.
  keeps_steps; apply keeps_modify, keeps_five_insert;
    by apply (bool_decide_unpack _).
Qed.

(** What holds after a step that establishes it and steps that keep it. *)
Lemma after_modify {Self A} (Q : Self → Prop) (f : Self → Self)
    (k : unit → M (State Self D) A) (s : State Self D) :
  Q (self (k tt (set_self f s)).2) →
  Q (self (bind (modify (set_self f)) k s).2).
Proof. done. Qed.

Lemma established_then_kept {Self A B} (Q : Self → Prop)
    (m : M (State Self D) A) (k : A → M (State Self D) B) :
  (∀ s, Q (self (m s).2)) → (∀ a, keeps_self Q (k a)) →
  ∀ s, Q (self (bind m k s).2).
Proof.
  intros Hm Hk s. unfold bind. specialize (Hm s).
  destruct (m s) as [[a|e|] s']; cbn in *; [|done..].
  by apply Hk.
Qed.

Lemma setup_five (s : St) :
  has_five_features (self (_setup_platform_specific_imports behave s).2).
Proof.
  unfold _setup_platform_specific_imports.
  apply after_modify.
  apply (established_then_kept has_five_features).
  - intros s0. apply all_features_five.
  - intros _. keeps_steps;
      try (by apply keeps_modify); apply keeps_modify, keeps_five_fmap.
Qed.

Lemma init_five (sys : string) (s : St) :
  has_five_features (self (__init__ behave sys s).2).
Proof.
  unfold __init__. apply after_modify.
  apply (established_then_kept has_five_features).
  - apply setup_five.
  - intros _. apply validate_keeps_five.
Qed.

Lemma new_returned (sys : string) (w w' : World D) (o : object) :
  new behave sys w = (Returned o, w') →
  __init__ behave sys (MkState (MkObject "" false ∅) w)
  = (Returned tt, MkState o w').
Proof.
  unfold new.
  destruct (__init__ behave sys _) as [[[]|e|] [o' w'']]; cbn;
    intros [= <- <-]; done.
Qed.

Lemma five_features_lookup (o : object) (k : string) :
  has_five_features o → k ∈ feature_names →
  is_Some (supported_features o !! k).
Proof.
  intros Ho Hk. apply elem_of_dom. rewrite Ho.
  by apply elem_of_list_to_set.
Qed.

(** A guarded operation whose [except] returns a message does not
    raise once its feature has a value. *)
Lemma guarded_not_raised (k refusal : string) (body : M St string)
    (f : exn → string) (s : St) :
  is_Some (supported_features (self s) !! k) →
  is_raised
    ((let* supported := feature k in
      if negb supported then ret refusal
      else try_except body (λ e, ret (f e))) s).1 = false.
Proof.
  intros [b Hb]. unfold bind at 1. rewrite (feature_lookup _ _ _ Hb).
  destruct b; cbn [negb]; [apply try_except_ret_not_raised|done].
Qed.

Variable int_str : Z → string + exn.
Variable ratio_str : Z → string + exn.

(** X1.  Whatever the platform and the environment, a controller that
    [SystemController()] returns has exactly the five feature keys, and
    none of its four operations modelled here ever raises: every failure
    comes back as a message. *)
Theorem constructed_operations_never_raise (sys : string) (w w' : World D)
    (o : object) :
  new behave sys w = (Returned o, w') →
  has_five_features o
  ∧ ∀ (action : string) (value : option Z) (window_name : option string)
      (w'' : World D),
      is_raised (control_volume behave int_str action value (MkState o w'')).1
      = false
      ∧ is_raised
          (control_brightness behave int_str ratio_str action value
             (MkState o w'')).1 = false
      ∧ is_raised (power_management behave action (MkState o w'')).1 = false
      ∧ is_raised
          (window_management behave action window_name (MkState o w'')).1
        = false.
Proof.
  intros Hnew. apply new_returned in Hnew.
  pose proof (init_five sys (MkState (MkObject "" false ∅) w)) as Hfive.
  rewrite Hnew in Hfive. cbn in Hfive. split; [done|].
  intros action value window_name w''.
  repeat apply conj; apply guarded_not_raised; cbn;
    apply five_features_lookup; try done; by apply (bool_decide_unpack _).
Qed.

(** X2.  On a platform other than windows, linux and darwin, construction
    calls nothing and prints nothing, and declares the platform and all
    five features unsupported. *)
Theorem new_unknown_platform (sys : string) (w : World D) :
  sys ∉ ["windows"; "linux"; "darwin"] →
  new behave sys w
  = (Returned (MkObject sys false (all_features false)), w).
Proof.
  rewrite !not_elem_of_cons. intros (H1 & H2 & H3 & _).
  unfold new, __init__, _setup_platform_specific_imports,
    _validate_platform_support, try_except_cls, bind, modify, gets, ret,
    set_self. cbn.
  destruct (String.eqb_spec sys "windows"); [done|].
  destruct (String.eqb_spec sys "linux"); [done|].
  destruct (String.eqb_spec sys "darwin"); [done|].
  cbn. by destruct w.
Qed.

(** X3.  On Windows, when importing win32api, or win32con after it, fails
    with an [ImportError], construction still returns: it prints a
    warning, clears [platform_supported], runs no probe, and leaves all
    five features declared supported. *)
Theorem new_import_error (w : World D) (e : exn) :
  let win32api := Call "import" [PStr "win32api"] ∅ in
  let win32con := Call "import" [PStr "win32con"] ∅ in
  let warning :=
    "Warning: Some platform-specific features may not be available: "
    ++ str e in
  isinstance e "ImportError" = true →
  (∀ d', behave win32api (dev w) = (Raised e, d') →
         new behave "windows" w
         = (Returned (MkObject "windows" false (all_features true)),
            MkWorld (log w ++ [win32api]) (stdout w ++ [warning]) d'))
  ∧ (∀ v d1 d2,
       behave win32api (dev w) = (Returned v, d1) →
       behave win32con d1 = (Raised e, d2) →
       new behave "windows" w
       = (Returned (MkObject "windows" false (all_features true)),
          MkWorld (log w ++ [win32api; win32con]) (stdout w ++ [warning])
                  d2)).
Proof.
  intros win32api win32con warning He. split.
  - intros d' Hb.
    unfold new, __init__, _setup_platform_specific_imports,
      _validate_platform_support, try_except_cls, ext_, bind, modify, gets,
      ret, set_self, ext, print; cbn -[isinstance]. fold win32api.
    rewrite Hb; cbn -[isinstance]. by rewrite He.
  - intros v d1 d2 Hb1 Hb2.
    unfold new, __init__, _setup_platform_specific_imports,
      _validate_platform_support, try_except_cls, ext_, bind, modify, gets,
      ret, set_self, ext, print; cbn -[isinstance]. fold win32api.
    rewrite Hb1; cbn -[isinstance]. fold win32con.
    rewrite Hb2; cbn -[isinstance]. rewrite He. cbn.
    by rewrite <- !app_assoc.
Qed.

(** Follow every outcome of the outside calls and class tests in the
    goal. *)
Ltac run_behave :=
  repeat (match goal with
          | |- context [behave ?c ?d] =>
              destruct (behave c d) as [[?|?|] ?]; cbn -[isinstance]
          | |- context [isinstance ?e ?c] =>
              destruct (isinstance e c); cbn -[isinstance]
          end).

(** X4.  On windows, linux and darwin the power, window and process
    features are never probed: every controller that construction returns
    declares them supported.  Volume and brightness can only be cleared by
    a probe, so on Windows, and whenever construction ends with
    [platform_supported] cleared, all five features are declared
    supported. *)
Theorem new_unprobed_features (sys : string) (w w' : World D) (o : object) :
  sys ∈ ["windows"; "linux"; "darwin"] →
  new behave sys w = (Returned o, w') →
  (∀ k, k ∈ ["power"; "window"; "process"] →
        supported_features o !! k = Some true)
  ∧ (sys = "windows" ∨ platform_supported o = false →
     supported_features o = all_features true).
Proof.
  rewrite !elem_of_cons, elem_of_nil.
  intros [->|[->|[->|[]]]];
    unfold new, __init__, _setup_platform_specific_imports,
      _validate_platform_support, subprocess_run, try_except,
      try_except_cls, ext_, bind, modify, gets, ret, set_self, ext, print;
    cbn -[isinstance]; run_behave; intros [= <- <-]; cbn.
  all: try (split; [intros k Hk; revert k Hk; apply Forall_forall;
                    by repeat constructor|]).
  all: try (intros [|]; done).
Qed.

(** X5.  On Linux, when importing Xlib returns, the amixer probe raises
    and the xrandr probe returns, construction returns a controller with
    the volume feature cleared and the other four set: the failed probe
    costs only its own feature. *)
Theorem new_linux_volume_probe_fails (w : World D) (v0 v2 : pyval) (e : exn)
    (d1 d2 d3 : D) :
  let import := Call "import" [PStr "Xlib"] ∅ in
  let amixer :=
    Call "subprocess.run"
      [PList [PStr "amixer"; PStr "-D"; PStr "pulse"; PStr "sset";
              PStr "Master"; PStr "0%"]]
      {[ "capture_output" := PBool true ]} in
  let xrandr :=
    Call "subprocess.run"
      [PList [PStr "xrandr"; PStr "--output";
              PStr ("$(xrandr -q | grep " ++ dq ++ " connected" ++ dq
                    ++ " | cut -d " ++ dq ++ " " ++ dq ++ " -f1)");
              PStr "--brightness"; PStr "1"]]
      {[ "capture_output" := PBool true ]} in
  behave import (dev w) = (Returned v0, d1) →
  behave amixer d1 = (Raised e, d2) →
  behave xrandr d2 = (Returned v2, d3) →
  new behave "linux" w
  = (Returned
       (MkObject "linux" true (<["volume" := false]> (all_features true))),
     MkWorld (log w ++ [import; amixer; xrandr]) (stdout w) d3).
Proof.
  intros import amixer xrandr H0 H1 H2.
  unfold new, __init__, _setup_platform_specific_imports,
    _validate_platform_support, subprocess_run, try_except,
    try_except_cls, ext_, bind, modify, gets, ret, set_self, ext, print.
  cbn -[isinstance]. fold import. rewrite H0. cbn -[isinstance].
  fold amixer. rewrite H1. cbn. fold xrandr. rewrite H2. cbn.
  by rewrite <- !app_assoc.
Qed.

End Construction.

(** ** The operations of a [SystemController] *)

Section Operations.
Context {D : Type}.
Variable behave : call → D → outcome pyval * D.
Variable int_str : Z → string + exn.
Variable ratio_str : Z → string + exn.
Import SystemController.

#[local] Abbreviation St := (State object D).

Lemma guarded_unsupported {A} (k : string) (refusal : A) (m : M St A)
    (s : St) :
  supported_features (self s) !! k = Some false →
  (let* supported := feature k in
   if negb supported then ret refusal else m) s
  = (Returned refusal, s).
Proof. intros Hk. unfold bind. by rewrite (feature_lookup _ _ _ Hk). Qed.

Lemma guarded_supported {A} (k : string) (refusal : A) (m : M St A)
    (s : St) :
  supported_features (self s) !! k = Some true →
  (let* supported := feature k in
   if negb supported then ret refusal else m) s
  = m s.
Proof. intros Hk. unfold bind. by rewrite (feature_lookup _ _ _ Hk). Qed.

(** X6.  Like [control_volume], the brightness, power and window
    operations test their feature first: when it is declared unsupported
    they return their refusal with the state, hence the log of outside
    calls, unchanged, whatever the arguments. *)
Theorem unsupported_operations_refuse (action : string) (value : option Z)
    (window_name : option string) (s : St) :
  (supported_features (self s) !! "brightness" = Some false →
   control_brightness behave int_str ratio_str action value s
   = (Returned "Brightness control is not supported on this system", s))
  ∧ (supported_features (self s) !! "power" = Some false →
     power_management behave action s
     = (Returned "Power management is not supported on this system", s))
  ∧ (supported_features (self s) !! "window" = Some false →
     window_management behave action window_name s
     = (Returned "Window management is not supported on this system", s)).
Proof. repeat apply conj; intros Hk; by apply guarded_unsupported. Qed.

(** [_execute_osascript] turns every exception into a returned message. *)
Lemma osascript_not_raised (script : string) (s : St) :
  is_raised (_execute_osascript behave script s).1 = false.
Proof. apply try_except_ret_not_raised. Qed.

Lemma osascript_then_ret (script : string) (s : St) :
  is_raised ((_execute_osascript behave script >> ret tt) s).1 = false.
Proof.
  unfold bind. pose proof (osascript_not_raised script s) as H.
  by destruct (_execute_osascript behave script s) as [[v|e|] s'].
Qed.

(** On macOS no chain of actions raises once the value is formatted: each
    action goes through [_execute_osascript]. *)
Lemma volume_actions_darwin (action : string) (value : option Z) (s : St) :
  (∀ v, action = "set" → value = Some v → ∃ text, int_str v = inl text) →
  is_raised (volume_actions behave int_str "darwin" action value s).1 = false.
Proof.
  intros Hfmt. unfold volume_actions. cbn.
  repeat step_eqb; try destruct value as [v|]; try done;
    try apply osascript_then_ret.
  destruct (Hfmt v eq_refl eq_refl) as [text ->].
  apply osascript_then_ret.
Qed.

Lemma power_actions_darwin (action : string) (s : St) :
  is_raised (power_actions behave "darwin" action s).1 = false.
Proof.
  unfold power_actions. cbn.
  repeat step_eqb; try done; apply osascript_then_ret.
Qed.

Lemma brightness_actions_darwin (action : string) (value : option Z)
    (s : St) :
  (∀ v, action = "set" → value = Some v → ∃ text, ratio_str v = inl text) →
  is_raised (brightness_actions behave int_str ratio_str "darwin" action
               value s).1
  = false.
Proof.
  intros Hfmt. unfold brightness_actions. cbn.
  repeat step_eqb; try destruct value as [v|]; try done.
  destruct (Hfmt v eq_refl eq_refl) as [text ->].
  unfold try_except, try_except_cls, formatted, bind at 1 2, ret.
  destruct (os_system behave _ s) as [[[]|e|] s'] eqn:Hos; cbn; try done.
  apply osascript_then_ret.
Qed.

(** When the actions of a [try] block do not raise, what the operation
    returns is the message that follows them. *)
Lemma actions_then_message (actions : string → M St unit)
    (msg : string) (f : exn → string) (s s' : St) (r : string) :
  is_raised (actions (system (self s)) s).1 = false →
  try_except
    (let* sys := gets (λ s, system (self s)) in actions sys >> ret msg)
    (λ e, ret (f e)) s
  = (Returned r, s') →
  r = msg.
Proof.
  unfold try_except, try_except_cls, bind, gets, ret. cbn.
  destruct (actions _ s) as [[[]|e|] s0]; cbn; congruence.
Qed.

(** X7.  On macOS the volume, brightness and power operations never report
    the failure of an outside call: whatever the environment does, even if
    every outside call raises, what they return is their success message.
    The one error they can report is their own: a value that cannot be
    formatted into the command, and then nothing has been called. *)
Theorem darwin_operations_report_success (action : string)
    (value : option Z) (s s' : St) (r : string) :
  system (self s) = "darwin" →
  (supported_features (self s) !! "volume" = Some true →
   (∀ v, action = "set" → value = Some v → ∃ text, int_str v = inl text) →
   control_volume behave int_str action value s = (Returned r, s') →
   r = "Volume " ++ action ++ " successful")
  ∧ (supported_features (self s) !! "brightness" = Some true →
     (∀ v, action = "set" → value = Some v →
           ∃ text, ratio_str v = inl text) →
     control_brightness behave int_str ratio_str action value s
     = (Returned r, s') →
     r = "Brightness " ++ action ++ " successful")
  ∧ (supported_features (self s) !! "power" = Some true →
     power_management behave action s = (Returned r, s') →
     r = "Power management action " ++ action ++ " initiated")
  ∧ (∀ v e,
       supported_features (self s) !! "volume" = Some true →
       int_str v = inr e →
       control_volume behave int_str "set" (Some v) s
       = (Returned ("Error controlling volume: " ++ str e), s))
  ∧ (∀ v e,
       supported_features (self s) !! "brightness" = Some true →
       ratio_str v = inr e →
       control_brightness behave int_str ratio_str "set" (Some v) s
       = (Returned ("Error controlling brightness: " ++ str e), s)).
Proof.
  intros Hsys. repeat apply conj.
  - intros Hk Hfmt. unfold control_volume.
    rewrite (guarded_supported _ _ _ _ Hk).
    apply (actions_then_message
             (λ sys, volume_actions behave int_str sys action value)).
    rewrite Hsys. by apply volume_actions_darwin.
  - intros Hk Hfmt. unfold control_brightness.
    rewrite (guarded_supported _ _ _ _ Hk).
    apply (actions_then_message
             (λ sys, brightness_actions behave int_str ratio_str sys action
                       value)).
    rewrite Hsys. by apply brightness_actions_darwin.
  - intros Hk. unfold power_management.
    rewrite (guarded_supported _ _ _ _ Hk).
    apply (actions_then_message (λ sys, power_actions behave sys action)).
    rewrite Hsys. apply power_actions_darwin.
  - intros v e Hk Hfmt. unfold control_volume.
    rewrite (guarded_supported _ _ _ _ Hk).
    unfold try_except, try_except_cls, bind, gets, ret, volume_actions.
    rewrite Hsys, Hfmt. reflexivity.
  - intros v e Hk Hfmt. unfold control_brightness.
    rewrite (guarded_supported _ _ _ _ Hk).
    unfold try_except, try_except_cls, bind, gets, ret, brightness_actions.
    rewrite Hsys, Hfmt. reflexivity.
Qed.

(** X8.  With brightness supported, only ["set"] with a value acts: for
    any other action (["up"] and ["down"] included) and for ["set"]
    without a value, [control_brightness] answers
    "Brightness <action> successful" on every platform with the state,
    hence the log of outside calls, unchanged. *)
Theorem control_brightness_only_set (action : string) (value : option Z)
    (s : St) :
  supported_features (self s) !! "brightness" = Some true →
  action ≠ "set" ∨ value = None →
  control_brightness behave int_str ratio_str action value s
  = (Returned ("Brightness " ++ action ++ " successful"), s).
Proof.
  intros Hk Hno. unfold control_brightness.
  rewrite (guarded_supported _ _ _ _ Hk).
  unfold try_except, try_except_cls, bind, gets, ret, brightness_actions.
  cbn.
  repeat step_eqb; try reflexivity;
    destruct Hno as [? | ->]; try reflexivity; done.
Qed.

(** X9.  With power management supported, [power_management] answers
    "Power management action <action> initiated" with the state unchanged,
    nothing having been called, for every action outside
    sleep/shutdown/restart/hibernate, for ["hibernate"] anywhere but on
    Windows, and for every action on an unknown platform. *)
Theorem power_management_no_action (action : string) (s : St) :
  supported_features (self s) !! "power" = Some true →
  system (self s) ∉ ["windows"; "darwin"; "linux"]
  ∨ action ∉ ["sleep"; "shutdown"; "restart"; "hibernate"]
  ∨ (system (self s) ≠ "windows" ∧ action = "hibernate") →
  power_management behave action s
  = (Returned ("Power management action " ++ action ++ " initiated"), s).
Proof.
  intros Hk Hno. unfold power_management.
  rewrite (guarded_supported _ _ _ _ Hk).
  unfold try_except, try_except_cls, bind, gets, ret, power_actions.
  cbn. rewrite !not_elem_of_cons in Hno.
  repeat step_eqb; try reflexivity;
    exfalso; repeat (destruct_or! || destruct_and!);
    try discriminate; try congruence.
Qed.

(** X10.  With window management supported, a missing or empty window name
    is answered "No window specified" before anything is called, whatever
    the action and the platform. *)
Theorem window_management_no_name (action : string)
    (window_name : option string) (s : St) :
  supported_features (self s) !! "window" = Some true →
  window_name = None ∨ window_name = Some "" →
  window_management behave action window_name s
  = (Returned "No window specified", s).
Proof.
  intros Hk Hname. unfold window_management.
  rewrite (guarded_supported _ _ _ _ Hk).
  by destruct Hname as [-> | ->].
Qed.

(** X11.  Off macOS, when the lookup by title finds no window,
    [window_management] answers "Window '<name>' not found" having made
    that one call and no other, whatever the action. *)
Theorem window_management_not_found (action name : string) (s : St)
    (windows : pyval) (d' : D) :
  let lookup := Call "pyautogui.getWindowsWithTitle" [PStr name] ∅ in
  supported_features (self s) !! "window" = Some true →
  name ≠ "" →
  system (self s) ≠ "darwin" →
  behave lookup (dev (world s)) = (Returned windows, d') →
  truthy windows = false →
  window_management behave action (Some name) s
  = (Returned ("Window '" ++ name ++ "' not found"),
     MkState (self s)
       (MkWorld (log (world s) ++ [lookup]) (stdout (world s)) d')).
Proof.
  intros lookup Hk Hname Hsys Hb Hfalse. unfold window_management.
  rewrite (guarded_supported _ _ _ _ Hk).
  unfold try_except, try_except_cls, window_body, bind, gets, ret, ext.
  destruct (String.eqb_spec name ""); [done|].
  destruct (String.eqb_spec (system (self s)) "darwin"); [done|].
  fold lookup. rewrite Hb. by rewrite Hfalse.
Qed.

(** X12.  With a window name given, an action outside
    minimize/maximize/close/focus is answered "Window <action> successful":
    on macOS with nothing called, elsewhere after the lookup alone when it
    finds a window. *)
Theorem window_management_unknown_action (action name : string) (s : St) :
  supported_features (self s) !! "window" = Some true →
  name ≠ "" →
  action ∉ ["minimize"; "maximize"; "close"; "focus"] →
  (system (self s) = "darwin" →
   window_management behave action (Some name) s
   = (Returned ("Window " ++ action ++ " successful"), s))
  ∧ (∀ window rest d',
       system (self s) ≠ "darwin" →
       behave (Call "pyautogui.getWindowsWithTitle" [PStr name] ∅)
         (dev (world s))
       = (Returned (PList (window :: rest)), d') →
       window_management behave action (Some name) s
       = (Returned ("Window " ++ action ++ " successful"),
          MkState (self s)
            (MkWorld
               (log (world s)
                ++ [Call "pyautogui.getWindowsWithTitle" [PStr name] ∅])
               (stdout (world s)) d'))).
Proof.
  intros Hk Hname Hact. rewrite !not_elem_of_cons in Hact.
  destruct Hact as (H1 & H2 & H3 & H4 & _).
  unfold window_management. rewrite (guarded_supported _ _ _ _ Hk).
  unfold try_except, try_except_cls, window_body, bind, gets, ret, ext.
  destruct (String.eqb_spec name ""); [done|]. split.
  - intros ->. cbn. by repeat step_eqb.
  - intros window rest d' Hsys Hb.
    destruct (String.eqb_spec (system (self s)) "darwin"); [done|].
    rewrite Hb. cbn. by repeat step_eqb.
Qed.

End Operations.

(** ** What no use of an [AIController] changes *)

Section Frozen.
Context {D : Type}.
Variable behave : call → D → outcome pyval * D.
Variable json_dumps : pyval → string.
Variable json_loads : string → outcome pyval.
Variable py_str : pyval → string.
Variable builtin_error : string → pyval → exn.
Import AIController.

#[local] Abbreviation St := (State object D).

(** Every method keeps a property that the attribute writes it makes
    keep; only the capture callback writes the queue. *)
Lemma other_uses_keep (Q : object → Prop) (u : use) (s : St) :
  (∀ v o, Q o → Q (set_audio_stream v o)) →
  (∀ v o, Q o → Q (set_ws v o)) →
  (∀ v o, Q o → Q (set_ws_thread v o)) →
  (∀ b o, Q o → Q (set_is_recording b o)) →
  (∀ indata status, u ≠ Use_audio_callback indata status) →
  Q (self s) →
  Q (self (run_use behave json_dumps json_loads py_str builtin_error u s)).
Proof.
  intros Hstream Hws Hthread Hrec Hu.
  destruct u as [h operation params| | |indata status
                 |opts date time msg rl|opts prompt|msg|error|];
    cbn [run_use]; revert s.
  - intros s HQ. by rewrite (preserves_run_handler behave h operation params s).
  - change (keeps_self Q (start_realtime behave)).
    unfold start_realtime. keeps_steps; apply keeps_modify; auto.
  - change (keeps_self Q (stop_realtime behave)).
    unfold stop_realtime. keeps_steps; apply keeps_modify; auto.
  - by destruct (Hu indata status).
  - change (keeps_self Q (send_text_message behave json_dumps opts date time
                            msg rl)).
    unfold send_text_message, ws_send. keeps_steps.
  - change (keeps_self Q (ask_sync (D:=D) json_dumps opts prompt)).
    unfold ask_sync, _handle_system_control. keeps_steps.
  - change (keeps_self Q (_on_message behave json_loads py_str builtin_error
                            msg)).
    unfold _on_message, contains, getitem. keeps_steps; by intros s.
  - change (keeps_self Q (_on_error (D:=D) py_str error)).
    apply keeps_print.
  - change (keeps_self Q (_on_close (D:=D))). apply keeps_print.
Qed.

Lemma uses_keep (Q : object → Prop) (u : use) (s : St) :
  (∀ v o, Q o → Q (set_audio_stream v o)) →
  (∀ v o, Q o → Q (set_ws v o)) →
  (∀ v o, Q o → Q (set_ws_thread v o)) →
  (∀ b o, Q o → Q (set_is_recording b o)) →
  (∀ q o, Q o → Q (set_audio_queue q o)) →
  Q (self s) →
  Q (self (run_use behave json_dumps json_loads py_str builtin_error u s)).
Proof.
  intros Hstream Hws Hthread Hrec Hqueue.
  destruct u as [h operation params| | |indata status
                 |opts date time msg rl|opts prompt|msg|error|];
    try (by apply other_uses_keep).
  cbn [run_use]. revert s.
  change (keeps_self Q (_audio_callback (D:=D) indata status)).
  unfold _audio_callback. keeps_steps; try (apply keeps_modify; auto).
  by intros s.
Qed.

Lemma run_uses_cons (u : use) (us : list use) (s : St) :
  run_uses behave json_dumps json_loads py_str builtin_error (u :: us) s
  = run_uses behave json_dumps json_loads py_str builtin_error us
      (run_use behave json_dumps json_loads py_str builtin_error u s).
Proof. reflexivity. Qed.

(** X13.  No use of a controller writes its configuration or its
    transcript: after any series of dispatches, starts, stops, captured
    blocks, sent messages, chat requests and socket events, the API key,
    device, initial prompt, mode, sample rate, channel count and
    [self.messages] are what they were; a controller made by [__init__]
    still holds the messages [_initialize_messages] gave it. *)
Theorem uses_leave_configuration (us : list use) (s : St) :
  fixed_part
    (self (run_uses behave json_dumps json_loads py_str builtin_error us s))
  = fixed_part (self s)
  ∧ ∀ api_key device initial_prompt mode system_content w,
      s = MkState (new api_key device initial_prompt mode system_content) w →
      messages
        (self (run_uses behave json_dumps json_loads py_str builtin_error
                 us s))
      = _initialize_messages system_content initial_prompt.
Proof.
  assert (fixed_part
            (self (run_uses behave json_dumps json_loads py_str builtin_error
                     us s))
          = fixed_part (self s)) as Hfixed.
  { revert s. induction us as [|u us IH]; intros s; [done|].
    rewrite run_uses_cons, IH.
    by apply (uses_keep (λ o, fixed_part o = fixed_part (self s))). }
  split; [done|].
  intros api_key device initial_prompt mode system_content w ->.
  unfold fixed_part in Hfixed. by injection Hfixed.
Qed.

(** X14.  Nothing ever takes a block off the audio queue.  From a state
    whose queue has no capacity, after any series of uses the queue holds
    what it held followed by every block the callback was handed, in
    order: blocks captured after [stop_realtime] are queued like the
    others, and none is ever removed. *)
Theorem audio_queue_only_grows (us : list use) (s : St) :
  maxsize (audio_queue (self s)) = 0%Z →
  audio_queue
    (self (run_uses behave json_dumps json_loads py_str builtin_error us s))
  = MkQueue 0 (items (audio_queue (self s)) ++ captured us).
Proof.
  revert s. induction us as [|u us IH]; intros s Hmax.
  - cbn. rewrite app_nil_r.
    by destruct (audio_queue (self s)); cbn in *; subst.
  - rewrite run_uses_cons.
    assert ((∃ indata status, u = Use_audio_callback indata status)
            ∨ captured (u :: us) = captured us) as [(indata & status & ->)|Hother].
    { destruct u; try (by right). left. by do 2 eexists. }
    + destruct (audio_callback_unbounded indata status s Hmax)
        as (s1 & Hrun & Hq).
      cbn [run_use]. rewrite Hrun. cbn [snd].
      rewrite IH by (by rewrite Hq). rewrite Hq. cbn.
      by rewrite <- app_assoc.
    + assert (audio_queue
                (self (run_use behave json_dumps json_loads py_str
                         builtin_error u s))
              = audio_queue (self s)) as Hsame.
      { destruct u as [h operation params| | |indata status
                      |opts date time msg rl|opts prompt|msg|error|];
          try (by apply (other_uses_keep
                           (λ o, audio_queue o = audio_queue (self s)))).
        change (captured (Use_audio_callback indata status :: us))
          with (indata :: captured us) in Hother.
        apply (f_equal length) in Hother. cbn [length] in Hother. lia. }
      rewrite IH by (by rewrite Hsame). by rewrite Hsame, Hother.
Qed.

End Frozen.

(** ** Text messages, the chat request and the socket callbacks *)

Lemma string_app_cons (a : Ascii.ascii) (s t : string) :
  String a s ++ t = String a (s ++ t).
Proof. reflexivity. Qed.

Lemma string_app_nil_r (s : string) : s ++ "" = s.
Proof.
  induction s as [|a s IH]; [reflexivity|]. by rewrite string_app_cons, IH.
Qed.

Lemma string_app_assoc (s t u : string) : (s ++ t) ++ u = s ++ t ++ u.
Proof.
  induction s as [|a s IH]; [reflexivity|]. by rewrite !string_app_cons, IH.
Qed.

Lemma string_prefix_app (s t : string) : String.prefix s (s ++ t) = true.
Proof.
  induction s as [|a s IH]; [by destruct t|]. rewrite string_app_cons. cbn.
  destruct (Ascii.ascii_dec a a); [exact IH|done].
Qed.

Lemma string_app_neq (s : string) (a : Ascii.ascii) (t : string) :
  s ++ String a t ≠ s.
Proof.
  intros Heq. rewrite <- (string_app_nil_r s) in Heq at 2.
  by apply (inj (String.app s)) in Heq.
Qed.

(** X15.  [append_tools_to_message] only ever appends: the message is a
    prefix of the result; the result is the message itself exactly when
    both flags are off; and with both on it is
    "<message> (Date: <date> | Time: <time>)". *)
Theorem append_tools_to_message_appends (opts : AIController.options)
    (date time message : string) :
  String.prefix message
    (AIController.append_tools_to_message opts date time message) = true
  ∧ (AIController.append_tools_to_message opts date time message = message
     ↔ AIController.include_date opts = false
       ∧ AIController.include_time opts = false)
  ∧ (AIController.include_date opts = true →
     AIController.include_time opts = true →
     AIController.append_tools_to_message opts date time message
     = message ++ " (Date: " ++ date ++ " | Time: " ++ time ++ ")").
Proof.
  unfold AIController.append_tools_to_message.
  destruct (AIController.include_date opts),
    (AIController.include_time opts); cbn [app AIController.join].
  1-3: split; [apply string_prefix_app|];
    (split; [split; [intros Heq; by apply string_app_neq in Heq
                    |by intros [? ?]]|]); try done.
  - intros _ _. by rewrite !string_app_assoc.
  - split.
    + rewrite <- (string_app_nil_r message) at 2. apply string_prefix_app.
    + done.
Qed.

Section Messaging.
Context {D : Type}.
Variable behave : call → D → outcome pyval * D.
Variable json_dumps : pyval → string.
Variable json_loads : string → outcome pyval.
Variable py_str : pyval → string.
Variable builtin_error : string → pyval → exn.
Import AIController.

#[local] Abbreviation St := (State object D).

(** X16.  On a controller whose socket was never opened ([self.ws] is
    [None], as after [__init__] and after [start_realtime] in text mode)
    [send_text_message] raises [AttributeError] before sending anything
    and leaves the state as it was. *)
Theorem send_text_message_without_socket (opts : options)
    (date time msg rl : string) (s : St) :
  ws (self s) = PNone →
  send_text_message behave json_dumps opts date time msg rl s
  = (Raised (Exn "AttributeError" "'NoneType' object has no attribute 'send'"),
     s).
Proof.
  intros Hws. unfold send_text_message, ws_send, bind, gets. cbn.
  by rewrite Hws.
Qed.

(** X17.  With a socket, [send_text_message] sends the conversation item
    carrying the role and the message with its date and time, then the
    response request, and nothing else.  If the first send raises, the
    exception leaves the method and the response request is not sent. *)
Theorem send_text_message_frames (opts : options)
    (date time msg rl : string) (s : St) :
  let sock := ws (self s) in
  let item :=
    Call "self.ws.send"
      [sock;
       PStr (json_dumps
               (conversation_event rl
                  (append_tools_to_message opts date time msg)))] ∅ in
  let request :=
    Call "self.ws.send" [sock; PStr (json_dumps response_create_event)] ∅ in
  sock ≠ PNone →
  (∀ v1 d1 v2 d2,
     behave item (dev (world s)) = (Returned v1, d1) →
     behave request d1 = (Returned v2, d2) →
     send_text_message behave json_dumps opts date time msg rl s
     = (Returned tt,
        MkState (self s)
          (MkWorld (log (world s) ++ [item; request]) (stdout (world s)) d2)))
  ∧ (∀ e d1,
       behave item (dev (world s)) = (Raised e, d1) →
       send_text_message behave json_dumps opts date time msg rl s
       = (Raised e,
          MkState (self s)
            (MkWorld (log (world s) ++ [item]) (stdout (world s)) d1))).
Proof.
  intros sock item request Hsock. subst sock item request.
  unfold send_text_message, ws_send, ext_, bind, gets, ext, ret.
  destruct s as [o w]. cbn in *.
  destruct (ws o) eqn:Hws; try done;
    (split; [intros v1 d1 v2 d2 Hb1 Hb2|intros e d1 Hb1]);
    cbn; rewrite ?Hws, Hb1; cbn; rewrite ?Hws; cbn; rewrite ?Hb2; cbn;
    by rewrite <- ?app_assoc.
Qed.

(** X18.  [ask_sync] is a stub: for every prompt, with function calling on
    or off, it answers "Response from OpenAI" and leaves the state as it
    was; it calls nothing, so no dispatcher runs on the chat path. *)
Theorem ask_sync_constant (opts : options) (prompt : string) (s : St) :
  ask_sync json_dumps opts prompt s = (Returned "Response from OpenAI", s).
Proof.
  unfold ask_sync, _handle_system_control, try_except, try_except_cls,
    when, bind, ret.
  by destruct (function_calling opts).
Qed.

Lemma contains_not_blocked (k : string) (data : pyval) (s : St) :
  (∃ b, contains builtin_error k data s = (Returned b, s))
  ∨ (∃ e, contains builtin_error k data s = (Raised e, s)).
Proof. destruct data; cbn; eauto. Qed.

(** X19.  [_on_message] never raises and never writes an attribute of the
    controller, whatever the message: a text delta is printed, not
    appended to [self.messages]. *)
Theorem on_message_contained (message : string) (s : St) :
  is_raised
    (_on_message behave json_loads py_str builtin_error message s).1 = false
  ∧ self (_on_message behave json_loads py_str builtin_error message s).2
    = self s.
Proof.
  split.
  - unfold _on_message, try_except, try_except_cls.
    by destruct (bind _ _ s) as [[[]|e|] s'].
  - assert (keeps_self (λ o, o = self s)
              (_on_message behave json_loads py_str builtin_error message))
      as Hkeeps.
    { unfold _on_message, contains, getitem. keeps_steps; by intros ?. }
    by apply Hkeeps.
Qed.

(** X20.  What [_on_message] does with a decoded message: a dictionary
    with a "text" entry has that text printed after "AI: " and nothing
    played, even if it also has an "audio" entry; a dictionary with
    neither entry is dropped without a trace; and a message that does not
    decode is reported on the output, after which the method returns. *)
Theorem on_message_cases (message : string) (s : St) :
  (∀ d i k v,
     json_loads message = Returned (PDict d) →
     list_find (λ kv, kv.1 = "text") d = Some (i, (k, v)) →
     _on_message behave json_loads py_str builtin_error message s
     = (Returned tt,
        MkState (self s)
          (MkWorld (log (world s))
                   (stdout (world s) ++ ["AI: " ++ text_of py_str v])
                   (dev (world s)))))
  ∧ (∀ d,
       json_loads message = Returned (PDict d) →
       "text" ∉ d.*1 → "audio" ∉ d.*1 →
       _on_message behave json_loads py_str builtin_error message s
       = (Returned tt, s))
  ∧ (∀ e,
       json_loads message = Raised e →
       _on_message behave json_loads py_str builtin_error message s
       = (Returned tt,
          MkState (self s)
            (MkWorld (log (world s))
                     (stdout (world s)
                      ++ ["Error processing message: " ++ str e])
                     (dev (world s))))).
Proof.
  unfold _on_message, try_except, try_except_cls, bind, contains, getitem,
    ret, print.
  repeat apply conj.
  - intros d i k v -> Hfind. cbn.
    assert ("text" ∈ d.*1) as Hin.
    { apply list_find_Some in Hfind as (Hi & Hk & _). cbn in Hk. subst k.
      apply list_elem_of_fmap. exists ("text", v). split; [done|].
      by apply list_elem_of_lookup_2 in Hi. }
    rewrite (bool_decide_eq_true_2 _ Hin). by rewrite Hfind.
  - intros d -> Htext Haudio. cbn.
    rewrite (bool_decide_eq_false_2 _ Htext).
    by rewrite (bool_decide_eq_false_2 _ Haudio).
  - by intros e ->.
Qed.

End Messaging.

(** ** Failures and leaks of the realtime session *)

Section RealtimeEdges.
Context {D : Type}.
Variable behave : call → D → outcome pyval * D.
Import AIController.

#[local] Abbreviation St := (State object D).

(** X21.  [stop_realtime] has no [try]: when stopping the stream raises,
    the exception leaves the method with [is_recording] cleared and
    nothing else done: the stream is not closed, the socket is not closed
    and the thread is not joined. *)
Theorem stop_realtime_stop_raises (s : St) (a : pyval) (e : exn) (d' : D) :
  audio_stream (self s) = Some a →
  behave (Call "self.audio_stream.stop" [a] ∅) (dev (world s))
  = (Raised e, d') →
  stop_realtime behave s
  = (Raised e,
     MkState (set_is_recording false (self s))
       (MkWorld (log (world s) ++ [Call "self.audio_stream.stop" [a] ∅])
                (stdout (world s)) d')).
Proof.
  destruct s as [o w].
  destruct o as [? ? ? ? ? ? ? ? sock thread stream ?]. cbn.
  intros -> Hb.
  unfold stop_realtime, when, ext_, bind, gets, modify, set_self, ext, ret.
  cbn. by rewrite Hb.
Qed.

(** X22.  [start_realtime] has no [try] either.  If creating the input
    stream raises, the exception leaves the method with the controller
    untouched.  If every call returns except the last one, starting the
    stream, the exception leaves the method with the socket thread started
    and [is_recording] already set. *)
Theorem start_realtime_failures (s : St) (e : exn) :
  let create :=
    Call "sd.InputStream" []
      {[ "samplerate" := PInt (sample_rate (self s));
         "channels" := PInt (channels (self s));
         "dtype" := PRef "np.int16";
         "callback" := PRef "self._audio_callback" ]} in
  mode (self s) = "realtime" →
  (∀ d', behave create (dev (world s)) = (Raised e, d') →
         start_realtime behave s
         = (Raised e,
            MkState (self s)
              (MkWorld (log (world s) ++ [create]) (stdout (world s)) d')))
  ∧ ((∀ c d, callee c ≠ "self.audio_stream.start" →
             ∃ v d', behave c d = (Returned v, d')) →
     (∀ c d, callee c = "self.audio_stream.start" →
             ∃ d', behave c d = (Raised e, d')) →
     ∃ s', start_realtime behave s = (Raised e, s')
           ∧ is_recording (self s') = true
           ∧ callee <$> log (world s')
             = ((callee <$> log (world s))
                ++ ["sd.InputStream"; "websocket.WebSocketApp";
                    "threading.Thread"; "setattr"; "self.ws_thread.start";
                    "self.audio_stream.start"])%list).
Proof.
  intros create Hmode. subst create. destruct s as [o w]. cbn in *. split.
  - intros d' Hb.
    unfold start_realtime, ext_, bind, gets, ext, modify, set_self, ret.
    cbn. rewrite Hmode. cbn. by rewrite Hb.
  - intros Hret Hraise.
    unfold start_realtime, ext_, bind, gets, ext, modify, set_self, ret.
    cbn. rewrite Hmode. cbn.
    repeat match goal with
           | |- context [behave (Call "self.audio_stream.start" ?a ?k) ?d] =>
               destruct (Hraise (Call "self.audio_stream.start" a k) d
                           eq_refl) as (? & ->); cbn
           | |- context [behave ?c ?d] =>
               let v := fresh "v" in
               let d' := fresh "d" in
               destruct (Hret c d) as (v & d' & ->); [done|]; cbn
           end.
    eexists. split; [reflexivity|]. split; [reflexivity|]. cbn.
    rewrite !fmap_app. cbn. by rewrite <- !app_assoc.
Qed.

(** When the outside calls return, [start_realtime] returns with the
    three objects the constructors gave stored, the thread and the stream
    started. *)
Lemma start_realtime_stores (s : St) :
  mode (self s) = "realtime" → returns_normally behave →
  ∃ stream sock thread w' c1 c2 c3,
    start_realtime behave s
    = (Returned tt,
       MkState (set_is_recording true
                  (set_ws_thread thread
                     (set_ws sock (set_audio_stream stream (self s)))))
               w')
    ∧ log w'
      = (log (world s)
         ++ [c1; c2; c3;
             Call "setattr" [thread; PStr "daemon"; PBool true] ∅;
             Call "self.ws_thread.start" [thread] ∅;
             Call "self.audio_stream.start" [stream] ∅])%list
    ∧ callee c1 = "sd.InputStream"
    ∧ callee c2 = "websocket.WebSocketApp"
    ∧ callee c3 = "threading.Thread".
Proof.
  destruct s as [o w]. cbn. intros Hmode Hret.
  unfold start_realtime, ext_, bind, gets, ext, modify, set_self, ret. cbn.
  rewrite Hmode. cbn.
  repeat match goal with
         | |- context [behave ?c ?d] =>
             let v := fresh "v" in
             let d' := fresh "d" in
             destruct (Hret c d) as (v & d' & ->); cbn
         end.
  do 7 eexists. split; [reflexivity|]. cbn. rewrite <- !app_assoc. cbn.
  split; [reflexivity|]. done.
Qed.

(** X23.  A second [start_realtime] orphans the first session.  In
    realtime mode, when the outside calls return and the second start's
    constructors hand out objects other than the first's, then over two
    starts and one stop the first session's stream and thread are started
    and never released: every [stop] and [close] of a stream is on the
    second stream, every [close] of a socket on the second socket, every
    [join] on the second thread; and the second stream is stopped and
    closed. *)
Theorem second_start_orphans_first (s : St) :
  let s1 := (start_realtime behave s).2 in
  let s2 := (start_realtime behave s1).2 in
  let s3 := (stop_realtime behave s2).2 in
  mode (self s) = "realtime" → returns_normally behave →
  audio_stream (self s1) ≠ audio_stream (self s2) →
  ws (self s1) ≠ ws (self s2) →
  ws_thread (self s1) ≠ ws_thread (self s2) →
  ∃ a1 a2 calls,
    audio_stream (self s1) = Some a1
    ∧ audio_stream (self s2) = Some a2
    ∧ log (world s3) = (log (world s) ++ calls)%list
    ∧ Call "self.audio_stream.start" [a1] ∅ ∈ calls
    ∧ Call "self.ws_thread.start" [ws_thread (self s1)] ∅ ∈ calls
    ∧ Call "self.audio_stream.stop" [a2] ∅ ∈ calls
    ∧ Call "self.audio_stream.close" [a2] ∅ ∈ calls
    ∧ ∀ c, c ∈ calls →
           (callee c = "self.audio_stream.stop"
            ∨ callee c = "self.audio_stream.close" →
            args c = [a2] ∧ args c ≠ [a1])
           ∧ (callee c = "self.ws.close" →
              args c = [ws (self s2)] ∧ args c ≠ [ws (self s1)])
           ∧ (callee c = "self.ws_thread.join" →
              args c = [ws_thread (self s2)]
              ∧ args c ≠ [ws_thread (self s1)]).
Proof.
  intros s1 s2 s3 Hmode Hret. subst s3 s2 s1.
  destruct (start_realtime_stores s Hmode Hret)
    as (a1 & k1 & t1 & w1 & c1 & c2 & c3 & Hrun1 & Hlog1 & Hc1 & Hc2 & Hc3).
  rewrite Hrun1. cbn [snd].
  set (o1 := set_is_recording true
               (set_ws_thread t1
                  (set_ws k1 (set_audio_stream a1 (self s))))) in *.
  assert (mode o1 = "realtime") as Hmode1.
  { subst o1. by destruct s as [[] ?]. }
  destruct (start_realtime_stores (MkState o1 w1) Hmode1 Hret)
    as (a2 & k2 & t2 & w2 & c4 & c5 & c6 & Hrun2 & Hlog2 & Hc4 & Hc5 & Hc6).
  rewrite Hrun2. cbn [snd self world] in *.
  set (o2 := set_is_recording true
               (set_ws_thread t2 (set_ws k2 (set_audio_stream a2 o1)))) in *.
  destruct (stop_realtime_calls behave o2 w2 Hret) as (w3 & Hrun3 & Hlog3).
  rewrite Hrun3. cbn [snd self world].
  rewrite Hlog3, Hlog2, Hlog1.
  clear Hrun1 Hrun2 Hrun3 Hlog1 Hlog2 Hlog3 Hmode1 Hmode Hret.
  subst o2 o1. destruct s as [o w]. destruct o. cbn.
  intros Ha Hk Ht.
  assert (a1 ≠ a2) as Ha' by congruence.
  exists a1, a2. eexists.
  split; [reflexivity|]. split; [reflexivity|].
  split; [by rewrite <- !app_assoc|].
  split; [rewrite !elem_of_app, !elem_of_cons; by auto 20|].
  split; [rewrite !elem_of_app, !elem_of_cons; by auto 20|].
  split; [rewrite !elem_of_app, !elem_of_cons; by auto 20|].
  split; [rewrite !elem_of_app, !elem_of_cons; by auto 20|].
  intros c Hin.
  destruct (truthy k2), (truthy t2);
    repeat (rewrite elem_of_app in Hin || rewrite elem_of_cons in Hin
            || rewrite elem_of_nil in Hin);
    repeat (destruct_or! || destruct_and!); subst; cbn;
    rewrite ?Hc1, ?Hc2, ?Hc3, ?Hc4, ?Hc5, ?Hc6;
    (split; [|split]); try (intros [|]); try intros; try discriminate;
    try done; split; try done; congruence.
Qed.

End RealtimeEdges.

(** ** The registry against the handlers and the collaborators *)

Section Coverage.
Context {D : Type}.
Variable behave : call → D → outcome pyval * D.
Import AIController.

#[local] Abbreviation St := (State object D).

Lemma invoke_calls_at_most_once c name args kw (s : St) :
  log (world (invoke behave c name args kw s).2) = log (world s)
  ∨ log (world (invoke behave c name args kw s).2)
    = (log (world s) ++ [method_call c name args kw])%list.
Proof.
  unfold invoke, ext. destruct (has_method c name); [right|by left].
  by destruct (behave _ _).
Qed.

(** X24.  A dispatch calls at most one method of one collaborator,
    whatever the handler, the operation name and the arguments: the log
    of outside calls grows by one entry or not at all. *)
Theorem dispatch_calls_at_most_once (h : handler) (operation : string)
    (params : gmap string pyval) (s : St) :
  log (world (run_handler behave h operation params s).2) = log (world s)
  ∨ ∃ c, log (world (run_handler behave h operation params s).2)
         = (log (world s) ++ [c])%list.
Proof.
  assert (∀ c name args kw,
            log (world (invoke behave c name args kw s).2) = log (world s)
            ∨ ∃ c', log (world (invoke behave c name args kw s).2)
                    = (log (world s) ++ [c'])%list) as Hinvoke.
  { intros c name args kw.
    destruct (invoke_calls_at_most_once c name args kw s) as [H|H];
      [by left|right; by eexists]. }
  destruct h; cbn [run_handler];
    unfold handle_system_control, handle_file_operation,
      handle_terminal_operation, handle_web_operation,
      handle_media_operation;
    rewrite try_except_ret_log;
    unfold system_control_body, file_operation_body,
      terminal_operation_body, web_operation_body, media_operation_body;
    repeat step_eqb; first [apply Hinvoke | by left].
Qed.

Lemma invoke_missing c name args kw (s : St) :
  has_method c name = false →
  log (world (invoke behave c name args kw s).2) = log (world s).
Proof. intros Hm. unfold invoke. by rewrite Hm. Qed.

Lemma app_singleton_neq {A} (l : list A) (x : A) : (l ++ [x])%list ≠ l.
Proof.
  intros H. apply (f_equal length) in H. rewrite length_app in H.
  cbn in H. lia.
Qed.

(** X25.  Of the 36 registered operations, dispatched under their
    registered names, exactly 27 reach a collaborator.  The other nine
    call nothing: the five registered for [handle_system_control], whose
    names it does not know, and the four media operations whose methods
    [MediaOperations] does not define. *)
Theorem registry_reach (name : string) (h : handler)
    (params : gmap string pyval) (s : St) :
  available_functions !! name = Some h →
  (log (world (run_handler behave h name params s).2) = log (world s)
   ↔ h = Handle_system_control
     ∨ name ∈ ["edit_image"; "analyze_image"; "transcribe_audio";
               "edit_audio"]).
Proof.
  intros Hreg.
  apply (dict_display_lookup _ _ _ available_functions_NoDup) in Hreg.
  unfold available_functions_items in Hreg.
  repeat (apply elem_of_cons in Hreg as [Hreg|Hreg];
          [injection Hreg as -> ->;
           unfold run_handler, handle_system_control, handle_file_operation,
             handle_terminal_operation, handle_web_operation,
             handle_media_operation;
           rewrite try_except_ret_log;
           cbn -[invoke get];
           first
             [ (* nothing is called *)
               split; [intros _|done];
               first [by left | right; by apply (bool_decide_unpack _)]
             | rewrite invoke_missing by done;
               split; [intros _|done];
               right; by apply (bool_decide_unpack _)
             | rewrite invoke_log by done;
               split; [intros H; by apply app_singleton_neq in H|];
               intros [H|H]; [done|];
               exfalso; revert H; by apply (bool_decide_unpack _) ]|]).
  by apply elem_of_nil in Hreg.
Qed.

End Coverage.

(** ** The further properties at concrete inputs *)

Lemma constructed_operations_never_raise_witness :
  SystemController.new Lab.behave "linux" Lab.world0
  = (Returned (self Lab.linux), world Lab.linux)
  ∧ has_five_features (self Lab.linux)
  ∧ is_raised
      (SystemController.window_management Lab.behave "close" (Some "Editor")
         (MkState (self Lab.linux) Lab.world0)).1 = false.
Proof.
  split; [reflexivity|].
  destruct (constructed_operations_never_raise Lab.behave Lab.int_str
              Bench.ratio_str "linux" Lab.world0 (world Lab.linux) (self Lab.linux) eq_refl)
    as [Hfive Hops].
  split; [exact Hfive|].
  apply (Hops "close" None (Some "Editor") Lab.world0).
Defined.

Lemma new_unknown_platform_witness :
  ("freebsd" ∉ ["windows"; "linux"; "darwin"])
  ∧ SystemController.new Lab.failing "freebsd" Lab.world0
    = (Returned (SystemController.MkObject "freebsd" false
                   (all_features false)),
       Lab.world0).
Proof.
  assert ("freebsd" ∉ ["windows"; "linux"; "darwin"]) as H.
  { by apply (bool_decide_unpack _). }
  split; [exact H|].
  apply (new_unknown_platform Lab.failing "freebsd" Lab.world0 H).
Defined.

Lemma new_import_error_witness :
  SystemController.new Bench.no_module "windows" Lab.world0
  = (Returned (SystemController.MkObject "windows" false
                 (all_features true)),
     MkWorld [Call "import" [PStr "win32api"] ∅]
       ["Warning: Some platform-specific features may not be available: "
        ++ "No module named 'win32api'"]
       0%N).
Proof.
  apply (new_import_error Bench.no_module Lab.world0
           (Exn "ModuleNotFoundError" "No module named 'win32api'"));
    reflexivity.
Defined.

Lemma new_unprobed_features_witness :
  "darwin" ∈ ["windows"; "linux"; "darwin"]
  ∧ SystemController.new Lab.failing "darwin" Lab.world0
    = (Returned (SystemController.MkObject "darwin" true
                   (<["brightness" := false]>
                      (<["volume" := false]> (all_features true)))),
       (SystemController.new Lab.failing "darwin" Lab.world0).2)
  ∧ ∀ k, k ∈ ["power"; "window"; "process"] →
         (<["brightness" := false]>
            (<["volume" := false]> (all_features true))) !! k
         = Some true.
Proof.
  assert ("darwin" ∈ ["windows"; "linux"; "darwin"]) as H.
  { by apply (bool_decide_unpack _). }
  split; [exact H|]. split; [reflexivity|].
  apply (new_unprobed_features Lab.failing "darwin" Lab.world0
           (SystemController.new Lab.failing "darwin" Lab.world0).2
           (SystemController.MkObject "darwin" true
              (<["brightness" := false]>
                 (<["volume" := false]> (all_features true))))
           H eq_refl).
Defined.

Lemma new_linux_volume_probe_fails_witness :
  SystemController.new Bench.no_amixer "linux" Lab.world0
  = (Returned
       (SystemController.MkObject "linux" true
          (<["volume" := false]> (all_features true))),
     (SystemController.new Bench.no_amixer "linux" Lab.world0).2)
  ∧ callee <$> log (SystemController.new Bench.no_amixer "linux"
                      Lab.world0).2
    = ["import"; "subprocess.run"; "subprocess.run"].
Proof.
  split; [|reflexivity].
  rewrite (new_linux_volume_probe_fails Bench.no_amixer Lab.world0 PNone
             PNone
             (Exn "FileNotFoundError"
                "[Errno 2] No such file or directory: 'amixer'")
             0%N 0%N 0%N eq_refl eq_refl eq_refl).
  reflexivity.
Defined.

Lemma unsupported_operations_refuse_witness :
  SystemController.supported_features (self Lab.freebsd) !! "power"
  = Some false
  ∧ SystemController.power_management Lab.behave "shutdown" Lab.freebsd
    = (Returned "Power management is not supported on this system",
       Lab.freebsd).
Proof.
  split; [reflexivity|].
  apply (unsupported_operations_refuse Lab.behave Lab.int_str Bench.ratio_str
           "shutdown" None None Lab.freebsd).
  reflexivity.
Defined.

(** On macOS, in an environment where every outside call fails, setting
    the brightness to 50 is still reported successful; a brightness of
    10^400 is refused by the division, and nothing is called. *)
Lemma darwin_operations_report_success_witness :
  SystemController.system (self Bench.darwin) = "darwin"
  ∧ SystemController.supported_features (self Bench.darwin) !! "brightness"
    = Some true
  ∧ Bench.ratio_str 50 = inl "0.5"
  ∧ SystemController.control_brightness Lab.failing Lab.int_str
      Bench.ratio_str "set" (Some 50%Z) Bench.darwin
    = (Returned "Brightness set successful",
       (SystemController.control_brightness Lab.failing Lab.int_str
          Bench.ratio_str "set" (Some 50%Z) Bench.darwin).2)
  ∧ "Brightness set successful" = "Brightness " ++ "set" ++ " successful"
  ∧ SystemController.control_brightness Lab.failing Lab.int_str
      Bench.ratio_str "set" (Some (10 ^ 400)%Z) Bench.darwin
    = (Returned ("Error controlling brightness: "
                 ++ "integer division result too large for a float"),
       Bench.darwin).
Proof.
  split; [reflexivity|]. split; [reflexivity|]. split; [reflexivity|].
  split; [reflexivity|].
  destruct (darwin_operations_report_success Lab.failing Lab.int_str
              Bench.ratio_str "set" (Some 50%Z) Bench.darwin
              (SystemController.control_brightness Lab.failing Lab.int_str
                 Bench.ratio_str "set" (Some 50%Z) Bench.darwin).2
              "Brightness set successful" eq_refl)
    as (_ & Hsuccess & _ & _ & Hrefused).
  split.
  - apply Hsuccess; [reflexivity| |reflexivity].
    intros v _ [= <-]. by exists "0.5".
  - apply (Hrefused (10 ^ 400)%Z
             (Exn "OverflowError"
                "integer division result too large for a float"));
      [reflexivity|by vm_compute].
Defined.

Lemma control_brightness_only_set_witness :
  SystemController.supported_features (self Lab.linux) !! "brightness"
  = Some true
  ∧ SystemController.control_brightness Lab.behave Lab.int_str
      Bench.ratio_str "up" (Some 50%Z) Lab.linux
    = (Returned "Brightness up successful", Lab.linux).
Proof.
  split; [reflexivity|].
  apply (control_brightness_only_set Lab.behave Lab.int_str Bench.ratio_str
           "up" (Some 50%Z) Lab.linux); [reflexivity|by left].
Defined.

Lemma power_management_no_action_witness :
  SystemController.supported_features (self Lab.linux) !! "power" = Some true
  ∧ SystemController.power_management Lab.behave "hibernate" Lab.linux
    = (Returned "Power management action hibernate initiated", Lab.linux).
Proof.
  split; [reflexivity|].
  apply (power_management_no_action Lab.behave "hibernate" Lab.linux);
    [reflexivity|].
  right; right. split; [discriminate|reflexivity].
Defined.

Lemma window_management_no_name_witness :
  SystemController.supported_features (self Lab.windows) !! "window"
  = Some true
  ∧ SystemController.window_management Lab.behave "minimize" (Some "")
      Lab.windows
    = (Returned "No window specified", Lab.windows).
Proof.
  split; [reflexivity|].
  apply (window_management_no_name Lab.behave "minimize" (Some "")
           Lab.windows); [reflexivity|by right].
Defined.

(** The "Minimize All" button asks for the window titled "all". *)
Lemma window_management_not_found_witness :
  Bench.desktop (Call "pyautogui.getWindowsWithTitle" [PStr "all"] ∅)
    (dev (world Lab.windows))
  = (Returned (PList []), dev (world Lab.windows))
  ∧ (SystemController.window_management Bench.desktop "minimize"
       (Some "all") Lab.windows).1
    = Returned "Window 'all' not found".
Proof.
  split; [reflexivity|].
  rewrite (window_management_not_found Bench.desktop "minimize" "all"
             Lab.windows (PList []) (dev (world Lab.windows)));
    [reflexivity|reflexivity|discriminate|discriminate|reflexivity
    |reflexivity].
Defined.

Lemma window_management_unknown_action_witness :
  ("shake" ∉ ["minimize"; "maximize"; "close"; "focus"])
  ∧ SystemController.window_management Lab.behave "shake" (Some "Editor")
      Bench.darwin
    = (Returned "Window shake successful", Bench.darwin)
  ∧ (SystemController.window_management Bench.desktop "shake"
       (Some "Editor") Lab.windows).1
    = Returned "Window shake successful".
Proof.
  assert ("shake" ∉ ["minimize"; "maximize"; "close"; "focus"]) as H.
  { by apply (bool_decide_unpack _). }
  split; [exact H|]. split.
  - apply (window_management_unknown_action Lab.behave "shake" "Editor"
             Bench.darwin); [reflexivity|discriminate|exact H|reflexivity].
  - destruct (window_management_unknown_action Bench.desktop "shake"
                "Editor" Lab.windows eq_refl) as [_ Hfound];
      [discriminate|exact H|].
    rewrite (Hfound (PObj 7) [] (dev (world Lab.windows)));
      [reflexivity|discriminate|reflexivity].
Defined.

(** A session that starts, dispatches, sends, stops and still receives
    audio keeps the messages [_initialize_messages] made. *)
Lemma uses_leave_configuration_witness :
  AIController.messages
    (self (run_uses Lab.behave Bench.dumps Bench.loads Bench.display
             Bench.builtin_error
             [Use_start_realtime;
              Use_handler AIController.Handle_file_operation "read_file"
                {[ "path" := PStr "notes.txt" ]};
              Use_send_text_message Bench.both "2025-01-01" "12:00:00"
                "hello" "user";
              Use_on_message Bench.text_message;
              Use_stop_realtime;
              Use_audio_callback [1%Z] (AIController.MkFlags false "")]
             Lab.controller))
  = AIController._initialize_messages
      "You are an AI assistant with control over the user's system." "".
Proof.
  apply (proj2 (uses_leave_configuration Lab.behave Bench.dumps Bench.loads
                  Bench.display Bench.builtin_error _ Lab.controller)
           "sk-test" "unknown" "" "realtime"
           "You are an AI assistant with control over the user's system."
           Lab.world0).
  reflexivity.
Defined.

(** Blocks captured before and after [stop_realtime] pile up alike. *)
Lemma audio_queue_only_grows_witness :
  AIController.maxsize (AIController.audio_queue (self Lab.started)) = 0%Z
  ∧ AIController.audio_queue
      (self (run_uses Lab.behave Bench.dumps Bench.loads Bench.display
               Bench.builtin_error
               [Use_audio_callback [1%Z; 2%Z] (AIController.MkFlags false "");
                Use_stop_realtime;
                Use_audio_callback [3%Z] (AIController.MkFlags false "")]
               Lab.started))
    = AIController.MkQueue 0 [[1%Z; 2%Z]; [3%Z]].
Proof.
  split; [reflexivity|].
  apply (audio_queue_only_grows Lab.behave Bench.dumps Bench.loads
           Bench.display Bench.builtin_error
           [Use_audio_callback [1%Z; 2%Z] (AIController.MkFlags false "");
            Use_stop_realtime;
            Use_audio_callback [3%Z] (AIController.MkFlags false "")]
           Lab.started).
  reflexivity.
Defined.

Lemma append_tools_to_message_appends_witness :
  AIController.append_tools_to_message Bench.both "2025-01-01" "12:00:00"
    "Set volume to 50%"
  = "Set volume to 50% (Date: 2025-01-01 | Time: 12:00:00)".
Proof.
  apply (append_tools_to_message_appends Bench.both "2025-01-01" "12:00:00"
           "Set volume to 50%"); reflexivity.
Defined.

Lemma send_text_message_without_socket_witness :
  AIController.ws (self Lab.controller) = PNone
  ∧ AIController.send_text_message Lab.behave Bench.dumps Bench.both
      "2025-01-01" "12:00:00" "hello" "user" Lab.controller
    = (Raised (Exn "AttributeError"
                 "'NoneType' object has no attribute 'send'"),
       Lab.controller).
Proof.
  split; [reflexivity|].
  apply (send_text_message_without_socket Lab.behave Bench.dumps Bench.both
           "2025-01-01" "12:00:00" "hello" "user" Lab.controller).
  reflexivity.
Defined.

Lemma send_text_message_frames_witness :
  AIController.ws (self Lab.started) ≠ PNone
  ∧ (AIController.send_text_message Lab.behave Bench.dumps Bench.both
       "2025-01-01" "12:00:00" "hello" "user" Lab.started).1
    = Returned tt
  ∧ (AIController.send_text_message Lab.failing Bench.dumps Bench.both
       "2025-01-01" "12:00:00" "hello" "user" Lab.started).1
    = Raised (Exn "TypeError" "boom").
Proof.
  assert (AIController.ws (self Lab.started) ≠ PNone) as H by discriminate.
  split; [exact H|]. split.
  - destruct (send_text_message_frames Lab.behave Bench.dumps Bench.both
                "2025-01-01" "12:00:00" "hello" "user" Lab.started H)
      as [Hsent _].
    rewrite (Hsent PNone (dev (world Lab.started)) PNone
               (dev (world Lab.started))); reflexivity.
  - destruct (send_text_message_frames Lab.failing Bench.dumps Bench.both
                "2025-01-01" "12:00:00" "hello" "user" Lab.started H)
      as [_ Hfail].
    rewrite (Hfail (Exn "TypeError" "boom") (dev (world Lab.started)));
      reflexivity.
Defined.

Lemma on_message_cases_witness :
  (AIController._on_message Lab.behave Bench.loads Bench.display
     Bench.builtin_error Bench.text_message Lab.started).1
  = Returned tt
  ∧ stdout (world (AIController._on_message Lab.behave Bench.loads
                     Bench.display Bench.builtin_error Bench.text_message
                     Lab.started).2)
    = ["AI: Hello"]
  ∧ AIController._on_message Lab.behave Bench.loads Bench.display
      Bench.builtin_error Bench.error_message Lab.started
    = (Returned tt, Lab.started).
Proof.
  destruct (on_message_cases Lab.behave Bench.loads Bench.display
              Bench.builtin_error Bench.text_message Lab.started)
    as (Htext & _ & _).
  rewrite (Htext [("text", PStr "Hello"); ("audio", PStr "AAAA")] 0 "text"
             (PStr "Hello") eq_refl eq_refl).
  split; [reflexivity|]. split; [reflexivity|].
  apply (on_message_cases Lab.behave Bench.loads Bench.display
           Bench.builtin_error Bench.error_message Lab.started)
    with (d := [("type", PStr "error")]);
    [reflexivity|by apply (bool_decide_unpack _)
    |by apply (bool_decide_unpack _)].
Defined.

Lemma stop_realtime_stop_raises_witness :
  AIController.audio_stream (self Lab.started) = Some (PObj 0)
  ∧ (AIController.stop_realtime Lab.failing Lab.started).1
    = Raised (Exn "TypeError" "boom")
  ∧ callee <$> drop 6 (log (world (AIController.stop_realtime Lab.failing
                                     Lab.started).2))
    = ["self.audio_stream.stop"].
Proof.
  split; [reflexivity|].
  rewrite (stop_realtime_stop_raises Lab.failing Lab.started (PObj 0)
             (Exn "TypeError" "boom") (dev (world Lab.started))
             eq_refl eq_refl).
  split; reflexivity.
Defined.

Lemma no_capture_returns (e : exn) (c : call) (d : N) :
  callee c ≠ "self.audio_stream.start" →
  ∃ v d', Bench.no_capture e c d = (Returned v, d').
Proof.
  intros Hc. unfold Bench.no_capture.
  destruct (String.eqb_spec (callee c) "self.audio_stream.start"); [done|].
  apply Lab_behave_returns.
Qed.

Lemma no_capture_raises (e : exn) (c : call) (d : N) :
  callee c = "self.audio_stream.start" →
  ∃ d', Bench.no_capture e c d = (Raised e, d').
Proof.
  intros Hc. unfold Bench.no_capture. rewrite Hc. by eexists.
Qed.

Lemma start_realtime_failures_witness :
  AIController.mode (self Lab.controller) = "realtime"
  ∧ AIController.start_realtime Lab.failing Lab.controller
    = (Raised (Exn "TypeError" "boom"),
       MkState (self Lab.controller)
         (AIController.start_realtime Lab.failing Lab.controller).2.(world))
  ∧ ∃ s', AIController.start_realtime
            (Bench.no_capture (Exn "PortAudioError" "Error starting stream"))
            Lab.controller
          = (Raised (Exn "PortAudioError" "Error starting stream"), s')
          ∧ AIController.is_recording (self s') = true.
Proof.
  split; [reflexivity|]. split.
  - destruct (start_realtime_failures Lab.failing Lab.controller
                (Exn "TypeError" "boom") eq_refl) as [Hfirst _].
    rewrite (Hfirst 0%N); reflexivity.
  - destruct (start_realtime_failures
                (Bench.no_capture (Exn "PortAudioError" "Error starting stream"))
                Lab.controller (Exn "PortAudioError" "Error starting stream")
                eq_refl) as [_ Hlast].
    destruct Hlast as (s' & Hrun & Hrec & _);
      [apply no_capture_returns|apply no_capture_raises|].
    by exists s'.
Defined.

(** Two starts and one stop on a new controller: the first session's
    stream, socket and thread are objects 0, 1 and 2, the second's 3, 4
    and 5, and only the second's are released. *)
Lemma second_start_orphans_first_witness :
  AIController.mode (self Lab.controller) = "realtime"
  ∧ AIController.audio_stream (self Lab.started) = Some (PObj 0)
  ∧ AIController.audio_stream (self Bench.restarted) = Some (PObj 3)
  ∧ ∃ a1 a2 calls,
      AIController.audio_stream (self Lab.started) = Some a1
      ∧ AIController.audio_stream (self Bench.restarted) = Some a2
      ∧ log (world Bench.stopped)
        = (log (world Lab.controller) ++ calls)%list
      ∧ Call "self.audio_stream.start" [a1] ∅ ∈ calls
      ∧ Call "self.ws_thread.start"
          [AIController.ws_thread (self Lab.started)] ∅ ∈ calls
      ∧ Call "self.audio_stream.stop" [a2] ∅ ∈ calls
      ∧ Call "self.audio_stream.close" [a2] ∅ ∈ calls
      ∧ ∀ c, c ∈ calls →
             (callee c = "self.audio_stream.stop"
              ∨ callee c = "self.audio_stream.close" →
              args c = [a2] ∧ args c ≠ [a1])
             ∧ (callee c = "self.ws.close" →
                args c = [AIController.ws (self Bench.restarted)]
                ∧ args c ≠ [AIController.ws (self Lab.started)])
             ∧ (callee c = "self.ws_thread.join" →
                args c = [AIController.ws_thread (self Bench.restarted)]
                ∧ args c ≠ [AIController.ws_thread (self Lab.started)]).
Proof.
  split; [reflexivity|]. split; [reflexivity|]. split; [reflexivity|].
  apply (second_start_orphans_first Lab.behave Lab.controller eq_refl
           Lab_behave_returns); by vm_compute.
Defined.

Lemma registry_reach_witness :
  AIController.available_functions !! "control_volume"
  = Some AIController.Handle_system_control
  ∧ log (world (AIController.run_handler Lab.behave
                  AIController.Handle_system_control "control_volume"
                  {[ "action" := PStr "up" ]} Lab.controller).2)
    = log (world Lab.controller).
Proof.
  split; [by vm_compute|].
  apply (registry_reach Lab.behave "control_volume"
           AIController.Handle_system_control {[ "action" := PStr "up" ]}
           Lab.controller); [by vm_compute|by left].
Defined.
